(** * WebVrm: the perception-to-rig pipeline

    A shallow embedding of the two hooks that make up the pipeline,

    - [useMediaPipeTracking] (src/hooks/useMediaPipeTracking.js): the per-tick
      [predict] callback that turns detector results into the tracking frame;
    - [useVRMAnimation] (src/hooks/useVRMAnimation.js): the effect that writes
      the frame onto the VRM rig,

    followed by the properties of the specification, each stated against these
    definitions.

    JavaScript numbers are modelled as exact rationals in canonical form
    ([Qc]), so that equality of numbers is Leibniz equality; where a property
    is about the stored bits of a number, the lines concerned are read again
    on IEEE 754 doubles.  Objects that the code shares between the previous
    and the new frame live in an explicit heap and are reached through
    references. *)

From Stdlib Require Import QArith Qcanon Qround Lqa Ascii String.
From Stdlib Require Import Floats.SpecFloat.
From stdpp Require Import gmap strings list fin_maps numbers.

Local Open Scope Qc_scope.

Set Default Proof Using "Type".

(* stdpp's solvers clear hypotheses by name as they go. *)
Set Warnings "-clear-no-such-hyp".

(** ** Numbers *)

(** A decimal literal of the source, e.g. [num 0.15]. *)
Definition num (x : Q) : Qc := Q2Qc x.
Arguments num x%_Q.

(** [function lerp(a, b, t) { return a + (b - a) * t; }] *)
Definition lerp (a b t : Qc) : Qc := a + (b - a) * t.

(** A property read that may give [undefined] is an [option]; [x || d]. *)
Definition js_or (o : option Qc) (d : Qc) : Qc :=
  match o with
  | Some v => if decide (v = 0) then d else v
  | None => d
  end.

(** [!x] for a possibly undefined number. *)
Definition js_not (o : option Qc) : bool :=
  match o with
  | Some v => bool_decide (v = 0)
  | None => true
  end.

Definition Math_max (a b : Qc) : Qc := if decide (a ≤ b) then b else a.

Definition Math_floor (a : Qc) : Qc := Qc_of_Z (Qfloor a).

(** Rounding towards zero, as the [%] operator does with its quotient. *)
Definition js_trunc (a : Qc) : Qc :=
  if decide (0 ≤ a) then Qc_of_Z (Qfloor a) else Qc_of_Z (Qceiling a).

(** [a % b]: the remainder has the sign of the dividend; a zero divisor gives
    [NaN], rendered as [None]. *)
Definition js_rem (a b : Qc) : option Qc :=
  if decide (b = 0) then None else Some (a - b * js_trunc (a / b)).

(** [r === 0] and [r < c] on a value that may be [NaN]: both are false then. *)
Definition nan_eq0 (r : option Qc) : bool :=
  match r with Some v => bool_decide (v = 0) | None => false end.
Definition nan_lt (r : option Qc) (c : Qc) : bool :=
  match r with Some v => bool_decide (v < c) | None => false end.

(** [String.prototype.toLowerCase] on ASCII labels. *)
Definition ascii_lower (c : ascii) : ascii :=
  let n := nat_of_ascii c in
  if (65 <=? n)%nat && (n <=? 90)%nat then ascii_of_nat (n + 32) else c.

Fixpoint toLowerCase (s : string) : string :=
  match s with
  | EmptyString => EmptyString
  | String c r => String (ascii_lower c) (toLowerCase r)
  end.

(** ** Data model *)

Record LandmarkPoint := { lm_x : Qc; lm_y : Qc; lm_z : Qc }.

Record Rotation := { rot_x : Qc; rot_y : Qc; rot_z : Qc }.

Record Point2 := { pt_x : Qc; pt_y : Qc }.

Record Sides := { side_left : Point2; side_right : Point2 }.

(** The object behind [trackingData.face]. *)
Record FaceData := {
  rotation : Rotation;
  position : LandmarkPoint;
  blendShapes : gmap string Qc;
}.

(** The object behind [trackingData.pose]. *)
Record PoseData := { shoulders : Sides; elbows : Sides; wrists : Sides }.

(** One entry of [trackingData.hands]; [landmarks] is [None] when the
    property holds [undefined]. *)
Record HandData := { landmarks : option (list LandmarkPoint); detected : bool }.

Record DetectionStatus := {
  faceDetected : bool;
  poseDetected : bool;
  handsDetected : gmap string bool;
}.

Record Settings := {
  trackingSmoothing : Qc;
  trackingSpeed : Qc;
  faceTrackingEnabled : bool;
  bodyTrackingEnabled : bool;
  handTrackingEnabled : bool;
  lipSyncEnabled : bool;
  lipSyncSensitivity : Qc;
  blinkEnabled : bool;
  blinkInterval : option Qc;
  idleAnimationEnabled : bool;
  mirrorMode : bool;
}.

(** *** Detector results *)

Record Category := { categoryName : string; score : Qc }.

Record Classifications := { categories : list Category }.

Record FaceResults := {
  faceLandmarks : option (list (list LandmarkPoint));
  faceBlendshapes : option (list Classifications);
}.

Record PoseResults := { poseLandmarks : option (list (list LandmarkPoint)) }.

Record HandResults := {
  handLandmarks : option (list (list LandmarkPoint));
  handedness : list (list Category);
}.

(** One call of [detectForVideo]: it returns a result or throws. *)
Inductive Detection (R : Type) :=
| Returns (r : R)
| Throws.
Arguments Returns {R} r.
Arguments Throws {R}.

(** The three landmarker refs at a tick; [None] is a ref whose [current] is
    still [null]. *)
Record Detectors := {
  faceLandmarker : option (Detection FaceResults);
  poseLandmarker : option (Detection PoseResults);
  handLandmarker : option (Detection HandResults);
}.

(** ** The heap of shared objects

    [{ ...trackingData }] copies the three top-level properties only: the new
    frame holds the same [face] and [hands] objects as the previous one.  Both
    are therefore heap cells, and a frame stores references to them.  The
    [pose] property is only ever replaced on the copy, never mutated in place,
    so a frame stores it by value. *)

Abbreviation loc := positive.

Record Heap := {
  faceObjs : gmap loc FaceData;
  handsObjs : gmap loc (gmap string HandData);
}.

(** The top-level [trackingData] object. *)
Record Frame := { face : loc; pose : PoseData; hands : loc }.

Inductive Error := TypeError | DetectionFailure.

Inductive Result (A : Type) :=
| Ok (a : A)
| Throw (e : Error).
Arguments Ok {A} a.
Arguments Throw {A} e.

(** Computations that mutate the heap and may throw; a throw keeps the
    mutations made before it. *)
Definition M (A : Type) : Type := Heap → Result A * Heap.

#[global] Instance M_ret : MRet M := λ A a h, (Ok a, h).

#[global] Instance M_bind : MBind M := λ A B k m h,
  match m h with
  | (Ok a, h') => k a h'
  | (Throw e, h') => (Throw e, h')
  end.

Definition throw {A} (e : Error) : M A := λ h, (Throw e, h).

(** Reading a property of [undefined] is a [TypeError]. *)
Definition defined {A} (o : option A) : M A :=
  match o with Some a => mret a | None => throw TypeError end.

Definition readFace (l : loc) : M FaceData :=
  λ h, match faceObjs h !! l with
       | Some f => (Ok f, h)
       | None => (Throw TypeError, h)
       end.

Definition writeFace (l : loc) (g : FaceData → FaceData) : M unit :=
  λ h, match faceObjs h !! l with
       | Some f => (Ok tt, {| faceObjs := <[l := g f]> (faceObjs h);
                              handsObjs := handsObjs h |})
       | None => (Throw TypeError, h)
       end.

Definition writeHands (l : loc) (g : gmap string HandData → gmap string HandData)
  : M unit :=
  λ h, match handsObjs h !! l with
       | Some o => (Ok tt, {| faceObjs := faceObjs h;
                              handsObjs := <[l := g o]> (handsObjs h) |})
       | None => (Throw TypeError, h)
       end.

Definition set_rotation (r : Rotation) (f : FaceData) : FaceData :=
  {| rotation := r; position := position f; blendShapes := blendShapes f |}.
Definition set_blendShapes (b : gmap string Qc) (f : FaceData) : FaceData :=
  {| rotation := rotation f; position := position f; blendShapes := b |}.
Definition set_rot_x (v : Qc) (f : FaceData) : FaceData :=
  set_rotation {| rot_x := v; rot_y := rot_y (rotation f);
                  rot_z := rot_z (rotation f) |} f.
Definition set_rot_y (v : Qc) (f : FaceData) : FaceData :=
  set_rotation {| rot_x := rot_x (rotation f); rot_y := v;
                  rot_z := rot_z (rotation f) |} f.
Definition set_rot_z (v : Qc) (f : FaceData) : FaceData :=
  set_rotation {| rot_x := rot_x (rotation f); rot_y := rot_y (rotation f);
                  rot_z := v |} f.

(** ** The tracking loop: [predict] of [useMediaPipeTracking] *)

(** What the host supplies: [Math.atan2], [Math.sin], [Math.PI] and
    [THREE.MathUtils.degToRad]. *)
Class Host := {
  Math_atan2 : Qc → Qc → Qc;
  Math_sin : Qc → Qc;
  Math_PI : Qc;
  degToRad : Qc → Qc;
}.

Section Pipeline.

Context {host : Host}.

(** The frame under construction and the fresh detection status of a tick. *)
Definition Tick : Type := Frame * DetectionStatus.

Definition newStatus : DetectionStatus :=
  {| faceDetected := false; poseDetected := false;
     handsDetected := {[ "left" := false; "right" := false ]} |}.

(** Calling [detectForVideo]. *)
Definition detectForVideo {R} (d : Detection R) : M R :=
  match d with Returns r => mret r | Throws => throw DetectionFailure end.

(** [categories.forEach(c => { blendShapes[c.categoryName] = c.score; })] *)
Definition collectBlendShapes (cs : list Category) : gmap string Qc :=
  foldl (λ b c, <[categoryName c := score c]> b) ∅ cs.

(** Lines 123-144: the head rotation estimated from the landmarks. *)
Definition headRotation (mirror : bool) (noseTip leftEye rightEye : LandmarkPoint)
  : Rotation :=
  let eyeCenter :=
    {| lm_x := (lm_x leftEye + lm_x rightEye) / num 2;
       lm_y := (lm_y leftEye + lm_y rightEye) / num 2;
       lm_z := (lm_z leftEye + lm_z rightEye) / num 2 |} in
  let yaw := (lm_x noseTip - num 0.5) * num 60 in
  let pitch := (lm_y noseTip - lm_y eyeCenter) * num 60 in
  let roll := Math_atan2 (lm_y rightEye - lm_y leftEye)
                         (lm_x rightEye - lm_x leftEye) * (num 180 / Math_PI) in
  {| rot_x := if mirror then - pitch else pitch;
     rot_y := if mirror then - yaw else yaw;
     rot_z := if mirror then - roll else roll |}.

(** Lines 115-155. *)
Definition faceTracking (settings : Settings) (dets : Detectors)
    (newTrackingData : Frame) (st : DetectionStatus) : M DetectionStatus :=
  match faceLandmarker dets with
  | Some d =>
    if faceTrackingEnabled settings then
      faceResults ← detectForVideo d;
      match faceLandmarks faceResults with
      | Some (lms :: _) =>
        let st' := {| faceDetected := true; poseDetected := poseDetected st;
                      handsDetected := handsDetected st |} in
        noseTip ← defined (lms !! 1%nat);
        leftEye ← defined (lms !! 33%nat);
        rightEye ← defined (lms !! 263%nat);
        writeFace (face newTrackingData)
          (set_rotation (headRotation (mirrorMode settings) noseTip leftEye rightEye));;
        match faceBlendshapes faceResults with
        | Some (c :: _) =>
          writeFace (face newTrackingData)
            (set_blendShapes (collectBlendShapes (categories c)));;
          mret st'
        | _ => mret st'
        end
      | _ => mret st
      end
    else mret st
  | None => mret st
  end.

Definition point2 (p : LandmarkPoint) : Point2 :=
  {| pt_x := lm_x p; pt_y := lm_y p |}.

(** Lines 157-181. *)
Definition poseTracking (settings : Settings) (dets : Detectors) (t : Tick)
  : M Tick :=
  let '(newTrackingData, st) := t in
  match poseLandmarker dets with
  | Some d =>
    if bodyTrackingEnabled settings then
      poseResults ← detectForVideo d;
      match poseLandmarks poseResults with
      | Some (p :: _) =>
        p11 ← defined (p !! 11%nat); p12 ← defined (p !! 12%nat);
        p13 ← defined (p !! 13%nat); p14 ← defined (p !! 14%nat);
        p15 ← defined (p !! 15%nat); p16 ← defined (p !! 16%nat);
        mret ({| face := face newTrackingData;
                 pose := {| shoulders := {| side_left := point2 p11;
                                            side_right := point2 p12 |};
                            elbows := {| side_left := point2 p13;
                                         side_right := point2 p14 |};
                            wrists := {| side_left := point2 p15;
                                         side_right := point2 p16 |} |};
                 hands := hands newTrackingData |},
              {| faceDetected := faceDetected st; poseDetected := true;
                 handsDetected := handsDetected st |})
      | _ => mret t
      end
    else mret t
  | None => mret t
  end.

(** Lines 188-195: the body of [handResults.handedness.forEach], from entry
    [index] on. *)
Fixpoint eachHand (lms : list (list LandmarkPoint)) (handsRef : loc)
    (index : nat) (hs : list (list Category)) (st : DetectionStatus)
  : M DetectionStatus :=
  match hs with
  | [] => mret st
  | handedness :: rest =>
    c ← defined (handedness !! 0%nat);
    let hand := toLowerCase (categoryName c) in
    let st' := {| faceDetected := faceDetected st;
                  poseDetected := poseDetected st;
                  handsDetected := <[hand := true]> (handsDetected st) |} in
    writeHands handsRef
      (insert hand {| landmarks := lms !! index; detected := true |});;
    eachHand lms handsRef (S index) rest st'
  end.

(** Lines 183-197. *)
Definition handTracking (settings : Settings) (dets : Detectors)
    (newTrackingData : Frame) (st : DetectionStatus) : M DetectionStatus :=
  match handLandmarker dets with
  | Some d =>
    if handTrackingEnabled settings then
      handResults ← detectForVideo d;
      match handLandmarks handResults with
      | Some (l :: ls) =>
        eachHand (l :: ls) (hands newTrackingData) 0 (handedness handResults) st
      | _ => mret st
      end
    else mret st
  | None => mret st
  end.

(** Lines 199-205.  Each argument of [lerp] is read through the frame it is
    written for in the source: the first through [trackingData], the second
    through [newTrackingData]. *)
Definition applySmoothing (settings : Settings)
    (trackingData newTrackingData : Frame) : M unit :=
  if decide (0 < trackingSmoothing settings) then
    let smooth := trackingSmoothing settings in
    a ← readFace (face trackingData);
    b ← readFace (face newTrackingData);
    writeFace (face newTrackingData)
      (set_rot_x (lerp (rot_x (rotation a)) (rot_x (rotation b)) (1 - smooth)));;
    a ← readFace (face trackingData);
    b ← readFace (face newTrackingData);
    writeFace (face newTrackingData)
      (set_rot_y (lerp (rot_y (rotation a)) (rot_y (rotation b)) (1 - smooth)));;
    a ← readFace (face trackingData);
    b ← readFace (face newTrackingData);
    writeFace (face newTrackingData)
      (set_rot_z (lerp (rot_z (rotation a)) (rot_z (rotation b)) (1 - smooth)))
  else mret tt.

(** Lines 112-208: the body of the [try] block.  Its value is the pair handed
    to [setTrackingData] and [setDetectionStatus]. *)
Definition predictBody (settings : Settings) (dets : Detectors)
    (trackingData : Frame) : M Tick :=
  let newTrackingData := trackingData in (* { ...trackingData } *)
  st ← faceTracking settings dets newTrackingData newStatus;
  '(newTrackingData', st) ← poseTracking settings dets (newTrackingData, st);
  st ← handTracking settings dets newTrackingData' st;
  applySmoothing settings trackingData newTrackingData';;
  mret (newTrackingData', st).

(** The state of the hook between ticks: the two React states, the heap, the
    errors sent to [console.error], and the number of [requestAnimationFrame]
    calls made so far. *)
Record HookState := {
  trackingData : Frame;
  detectionStatus : DetectionStatus;
  heap : Heap;
  errorLog : list Error;
  scheduled : nat;
}.

(** Lines 102-216: one run of [predict].  [ready] is
    [isTracking && videoRef.current && videoRef.current.readyState >= 2]. *)
Definition predict (ready : bool) (settings : Settings) (dets : Detectors)
    (s : HookState) : HookState :=
  if negb ready then
    {| trackingData := trackingData s; detectionStatus := detectionStatus s;
       heap := heap s; errorLog := errorLog s; scheduled := S (scheduled s) |}
  else
    match predictBody settings dets (trackingData s) (heap s) with
    | (Ok (newTrackingData, newDetectionStatus), h) =>
      {| trackingData := newTrackingData;
         detectionStatus := newDetectionStatus;
         heap := h; errorLog := errorLog s; scheduled := S (scheduled s) |}
    | (Throw e, h) =>
      {| trackingData := trackingData s; detectionStatus := detectionStatus s;
         heap := h; errorLog := errorLog s ++ [e];
         scheduled := S (scheduled s) |}
    end.

(** ** The rig writer: the effect of [useVRMAnimation] *)

Inductive Axis := AxisX | AxisY | AxisZ.

(** What the effect does to the rig, in program order. *)
Inductive RigWrite :=
| ScenePosition (x y z : Qc)            (* vrm.scene.position.set(x, y, z) *)
| SceneScale (s : Qc)                   (* vrm.scene.scale.setScalar(s) *)
| SceneRotationY (r : Qc)               (* vrm.scene.rotation.y = r *)
| BoneRotation (bone : string) (a : Axis) (r : Qc)
                                        (* node.rotation.a = r *)
| Expression (name : string) (w : Qc)   (* expressionManager.setValue(name, w) *)
| LookAtTarget (a : Axis) (v : Qc).     (* vrm.lookAt.target.a = v *)

(** The rig as the effect sees it: [humanoid] lists the bone names for which
    [getNormalizedBoneNode] gives a node; the other two tell whether the
    property is set. *)
Record VRM := {
  humanoid : option (gset string);
  expressionManager : bool;
  lookAt : bool;
}.

Record ModelTransform := {
  modelPosition : LandmarkPoint;
  modelScale : Qc;
  modelRotation : Qc;
}.

(** The [trackingData] object with its references followed. *)
Record TrackingData := {
  td_face : FaceData;
  td_pose : PoseData;
  td_hands : gmap string HandData;
}.


(** [humanoid.getNormalizedBoneNode(bone)] is truthy. *)
Definition hasBone (bones : gset string) (bone : string) : bool :=
  bool_decide (bone ∈ bones).

(** Lines 10-13. *)
Definition applyModelTransform (mt : ModelTransform) : list RigWrite :=
  [ ScenePosition (lm_x (modelPosition mt)) (lm_y (modelPosition mt))
                  (lm_z (modelPosition mt));
    SceneScale (modelScale mt);
    SceneRotationY (degToRad (modelRotation mt)) ].

(** Lines 19-25. *)
Definition applyHead (vrm : VRM) (rot : Rotation) (settings : Settings)
  : list RigWrite :=
  match humanoid vrm with
  | Some bones =>
    if hasBone bones "head" then
      [ BoneRotation "head" AxisX (degToRad (rot_x rot * trackingSpeed settings));
        BoneRotation "head" AxisY (degToRad (rot_y rot * trackingSpeed settings));
        BoneRotation "head" AxisZ (degToRad (rot_z rot * trackingSpeed settings)) ]
    else []
  | None => []
  end.

(** Lines 31-38. *)
Definition applyBlink (blendShapes : gmap string Qc) (settings : Settings)
  : list RigWrite :=
  if blinkEnabled settings then
    let blinkLeft := js_or (blendShapes !! "eyeBlinkLeft") 0 in
    let blinkRight := js_or (blendShapes !! "eyeBlinkRight") 0 in
    [ Expression "blinkLeft" blinkLeft;
      Expression "blinkRight" blinkRight;
      Expression "blink" ((blinkLeft + blinkRight) / num 2) ]
  else [].

(** Line 44, as a function of the three numbers it combines. *)
Definition mouthOpen (trackingMouth micMouth lipSyncSensitivity : Qc) : Qc :=
  Math_max trackingMouth micMouth * lipSyncSensitivity.

(** Lines 40-48. *)
Definition applyLipSync (blendShapes : gmap string Qc) (settings : Settings)
    (micLevel : Qc) : list RigWrite :=
  if lipSyncEnabled settings then
    let trackingMouth := js_or (blendShapes !! "jawOpen") 0 in
    let micMouth := js_or (Some micLevel) 0 in
    let mouthSmile := js_or (blendShapes !! "mouthSmileLeft") 0
                      + js_or (blendShapes !! "mouthSmileRight") 0 in
    [ Expression "aa" (mouthOpen trackingMouth micMouth (lipSyncSensitivity settings));
      Expression "happy" mouthSmile ]
  else [].

(** Lines 50-54. *)
Definition applyBrows (blendShapes : gmap string Qc) : list RigWrite :=
  let browUp := js_or (blendShapes !! "browInnerUp") 0 in
  let browDown := js_or (blendShapes !! "browDownLeft") 0
                  + js_or (blendShapes !! "browDownRight") 0 in
  [ Expression "surprised" browUp; Expression "angry" browDown ].

(** Lines 56-65. *)
Definition applyEyeLook (vrm : VRM) (blendShapes : gmap string Qc)
  : list RigWrite :=
  let eyeLookLeft := js_or (blendShapes !! "eyeLookInLeft") 0 in
  let eyeLookRight := js_or (blendShapes !! "eyeLookInRight") 0 in
  let eyeLookUp := js_or (blendShapes !! "eyeLookUpLeft") 0 in
  let eyeLookDown := js_or (blendShapes !! "eyeLookDownLeft") 0 in
  if lookAt vrm then
    [ LookAtTarget AxisX ((eyeLookRight - eyeLookLeft) * num 2);
      LookAtTarget AxisY ((eyeLookUp - eyeLookDown) * num 2) ]
  else [].

(** Lines 15-67.  [trackingData.face] and its [blendShapes] are objects, hence
    truthy. *)
Definition applyFace (vrm : VRM) (td : TrackingData) (settings : Settings)
    (micLevel : Qc) : list RigWrite :=
  if faceTrackingEnabled settings then
    applyHead vrm (rotation (td_face td)) settings
    ++ (if expressionManager vrm then
          let blendShapes := blendShapes (td_face td) in
          applyBlink blendShapes settings
          ++ applyLipSync blendShapes settings micLevel
          ++ applyBrows blendShapes
          ++ applyEyeLook vrm blendShapes
        else [])
  else [].

(** Lines 75-82 and 84-91: one upper arm. *)
Definition applyShoulder (bones : gset string) (bone : string)
    (shoulder elbow : Point2) : list RigWrite :=
  if hasBone bones bone then
    let shoulderAngle := Math_atan2 (pt_y elbow - pt_y shoulder)
                                    (pt_x elbow - pt_x shoulder) in
    [ BoneRotation bone AxisZ (shoulderAngle - Math_PI / num 2) ]
  else [].

(** Lines 94-101 and 103-110: one lower arm. *)
Definition applyElbow (bones : gset string) (bone : string)
    (elbow wrist : Point2) : list RigWrite :=
  if hasBone bones bone then
    let elbowAngle := Math_atan2 (pt_y wrist - pt_y elbow)
                                 (pt_x wrist - pt_x elbow) in
    [ BoneRotation bone AxisZ elbowAngle ]
  else [].

(** Lines 69-111.  [trackingData.pose] is an object, hence truthy. *)
Definition applyPose (vrm : VRM) (td : TrackingData) (settings : Settings)
  : list RigWrite :=
  if bodyTrackingEnabled settings then
    match humanoid vrm with
    | Some bones =>
      let pose := td_pose td in
      applyShoulder bones "leftUpperArm"
        (side_left (shoulders pose)) (side_left (elbows pose))
      ++ applyShoulder bones "rightUpperArm"
        (side_right (shoulders pose)) (side_right (elbows pose))
      ++ applyElbow bones "leftLowerArm"
        (side_left (elbows pose)) (side_left (wrists pose))
      ++ applyElbow bones "rightLowerArm"
        (side_right (elbows pose)) (side_right (wrists pose))
    | None => []
    end
  else [].

(** Lines 118-131 and 134-147: one hand.  [None] is a [TypeError]: the entry
    or its landmark list is [undefined], or the list has no index 9. *)
Definition applyHand (bones : gset string) (hands : gmap string HandData)
    (side bone : string) : option (list RigWrite) :=
  hand ← hands !! side;
  if detected hand then
    lms ← landmarks hand;
    if bool_decide (0 < length lms)%nat then
      if hasBone bones bone then
        wrist ← lms !! 0%nat;
        middleFinger ← lms !! 9%nat;
        let handAngle := Math_atan2 (lm_y middleFinger - lm_y wrist)
                                    (lm_x middleFinger - lm_x wrist) in
        Some [ BoneRotation bone AxisZ handAngle ]
      else Some []
    else Some []
  else Some [].

(** Lines 113-148.  The writes made, and whether the block ran to its end. *)
Definition applyHands (vrm : VRM) (td : TrackingData) (settings : Settings)
  : list RigWrite * bool :=
  if handTrackingEnabled settings then
    match humanoid vrm with
    | Some bones =>
      match applyHand bones (td_hands td) "left" "leftHand" with
      | Some wl =>
        match applyHand bones (td_hands td) "right" "rightHand" with
        | Some wr => (wl ++ wr, true)
        | None => (wl, false)
        end
      | None => ([], false)
      end
    | None => ([], true)
    end
  else ([], true).

(** Line 153: [settings.blinkInterval || 4]. *)
Definition blinkIntervalOr4 (settings : Settings) : Qc :=
  js_or (blinkInterval settings) (num 4).

(** Lines 150-159; [now] is the value of [Date.now()]. *)
Definition autoBlink (vrm : VRM) (td : TrackingData) (settings : Settings)
    (now : Qc) : list RigWrite :=
  if blinkEnabled settings
     && js_not (blendShapes (td_face td) !! "eyeBlinkLeft") then
    let time := now / num 1000 in
    let blinkInterval := blinkIntervalOr4 settings in
    if nan_eq0 (js_rem (Math_floor time) blinkInterval)
       && nan_lt (js_rem time 1) (num 0.15) then
      if expressionManager vrm then [ Expression "blink" 1 ] else []
    else []
  else [].

(** Lines 161-169. *)
Definition idleAnimation (vrm : VRM) (settings : Settings) (now : Qc)
  : list RigWrite :=
  if idleAnimationEnabled settings then
    match humanoid vrm with
    | Some bones =>
      let time := now / num 1000 in
      if hasBone bones "chest" then
        let breathe := Math_sin (time * num 2) * num 0.02 in
        [ BoneRotation "chest" AxisX breathe ]
      else []
    | None => []
    end
  else [].

(** Lines 5-171: the effect.  [nowBlink] and [nowIdle] are the two readings of
    [Date.now()].  A [TypeError] in the hand block ends the effect there. *)
Definition useVRMAnimation (vrm : option VRM) (td : TrackingData)
    (mt : ModelTransform) (settings : Settings) (micLevel : Qc)
    (nowBlink nowIdle : Qc) : list RigWrite :=
  match vrm with
  | None => []
  | Some vrm =>
    applyModelTransform mt
    ++ applyFace vrm td settings micLevel
    ++ applyPose vrm td settings
    ++ (let '(ws, completed) := applyHands vrm td settings in
        ws ++ (if completed then
                 autoBlink vrm td settings nowBlink
                 ++ idleAnimation vrm settings nowIdle
               else []))
  end.

(** ** The initial state of the hooks (lines 5-26 of the tracking hook) *)

Definition origin : LandmarkPoint := {| lm_x := 0; lm_y := 0; lm_z := 0 |}.
Definition zero2 : Point2 := {| pt_x := 0; pt_y := 0 |}.
Definition zeroSides : Sides := {| side_left := zero2; side_right := zero2 |}.

Definition initialFace : FaceData :=
  {| rotation := {| rot_x := 0; rot_y := 0; rot_z := 0 |};
     position := origin; blendShapes := ∅ |}.

Definition initialPose : PoseData :=
  {| shoulders := zeroSides; elbows := zeroSides; wrists := zeroSides |}.

Definition initialHands : gmap string HandData :=
  {[ "left" := {| landmarks := Some []; detected := false |};
     "right" := {| landmarks := Some []; detected := false |} ]}.

Definition initialState : HookState :=
  {| trackingData := {| face := 1%positive; pose := initialPose;
                        hands := 2%positive |};
     detectionStatus := newStatus;
     heap := {| faceObjs := {[ 1%positive := initialFace ]};
                handsObjs := {[ 2%positive := initialHands ]} |};
     errorLog := [];
     scheduled := 0 |}.


Definition faceOf (s : HookState) : option FaceData :=
  faceObjs (heap s) !! face (trackingData s).

Definition handsOf (s : HookState) : option (gmap string HandData) :=
  handsObjs (heap s) !! hands (trackingData s).

(** ** What the detectors deliver on a tick *)

(** A face is detected: the face part runs and its detector returns a
    non-empty list of faces. *)
Definition faceSeen (settings : Settings) (dets : Detectors) : bool :=
  match faceLandmarker dets with
  | Some (Returns r) =>
    faceTrackingEnabled settings
    && match faceLandmarks r with Some (_ :: _) => true | _ => false end
  | _ => false
  end.

(** The face detector returns blend shapes. *)
Definition blendShapeOutput (dets : Detectors) : bool :=
  match faceLandmarker dets with
  | Some (Returns r) =>
    match faceBlendshapes r with Some (_ :: _) => true | _ => false end
  | _ => false
  end.

(** The hands named by the handedness labels of a result. *)
Definition handLabels (hs : list (list Category)) : list string :=
  omap (λ handedness, toLowerCase ∘ categoryName <$> handedness !! 0%nat) hs.

(** The hand detector reports the hand called [hand]. *)
Definition handReported (dets : Detectors) (hand : string) : bool :=
  match handLandmarker dets with
  | Some (Returns r) => bool_decide (hand ∈ handLabels (handedness r))
  | _ => false
  end.

(** The detector of an enabled modality throws. *)
Definition detectorThrows (settings : Settings) (dets : Detectors) : bool :=
  (faceTrackingEnabled settings
   && match faceLandmarker dets with Some Throws => true | _ => false end)
  || (bodyTrackingEnabled settings
      && match poseLandmarker dets with Some Throws => true | _ => false end)
  || (handTrackingEnabled settings
      && match handLandmarker dets with Some Throws => true | _ => false end).

(** ** What else a tick and the effect are described by *)

(** A pose is detected: the body part runs and its detector returns a
    non-empty list of poses. *)
Definition poseSeen (settings : Settings) (dets : Detectors) : bool :=
  match poseLandmarker dets with
  | Some (Returns r) =>
    bodyTrackingEnabled settings
    && match poseLandmarks r with Some (_ :: _) => true | _ => false end
  | _ => false
  end.

(** The hand part runs, its detector returns a non-empty list of hands, and
    one of the handedness labels names [hand]. *)
Definition handSeen (settings : Settings) (dets : Detectors) (hand : string)
  : bool :=
  match handLandmarker dets with
  | Some (Returns r) =>
    handTrackingEnabled settings
    && match handLandmarks r with Some (_ :: _) => true | _ => false end
    && bool_decide (hand ∈ handLabels (handedness r))
  | _ => false
  end.

(** The results carry every landmark the tick reads: a face has the indices
    up to 263, a pose those up to 16, and each handedness entry has a first
    category. *)
Definition faceComplete (r : FaceResults) : bool :=
  match faceLandmarks r with
  | Some (lms :: _) => bool_decide (264 ≤ length lms)%nat
  | _ => true
  end.

Definition poseComplete (r : PoseResults) : bool :=
  match poseLandmarks r with
  | Some (p :: _) => bool_decide (17 ≤ length p)%nat
  | _ => true
  end.

Definition handsComplete (r : HandResults) : bool :=
  forallb (λ handedness, bool_decide (handedness ≠ [])) (handedness r).

(** No detector throws and every result is complete. *)
Definition resultsComplete (dets : Detectors) : bool :=
  match faceLandmarker dets with
  | Some (Returns r) => faceComplete r | Some Throws => false | None => true
  end
  && match poseLandmarker dets with
     | Some (Returns r) => poseComplete r | Some Throws => false | None => true
     end
  && match handLandmarker dets with
     | Some (Returns r) => handsComplete r | Some Throws => false | None => true
     end.

(** The pose that lines 166-179 build from one list of body landmarks. *)
Definition poseFrom (p11 p12 p13 p14 p15 p16 : LandmarkPoint) : PoseData :=
  {| shoulders := {| side_left := point2 p11; side_right := point2 p12 |};
     elbows := {| side_left := point2 p13; side_right := point2 p14 |};
     wrists := {| side_left := point2 p15; side_right := point2 p16 |} |}.

(** The index of the last handedness entry, counted from [index], whose
    label names [hand]. *)
Fixpoint lastLabelled (hand : string) (index : nat) (hs : list (list Category))
  : option nat :=
  match hs with
  | [] => None
  | handedness :: rest =>
    match lastLabelled hand (S index) rest with
    | Some i => Some i
    | None =>
      if bool_decide (toLowerCase ∘ categoryName <$> handedness !! 0%nat
                      = Some hand)
      then Some index else None
    end
  end.

(** A run of ticks on a ready video, one per pair of settings and detector
    results. *)
Definition ticksFrom (s : HookState) (inputs : list (Settings * Detectors))
  : HookState :=
  foldl (λ s input, predict true input.1 input.2 s) s inputs.

(** The component of a rotation about an axis. *)
Definition rotationAbout (a : Axis) (r : Rotation) : Qc :=
  match a with AxisX => rot_x r | AxisY => rot_y r | AxisZ => rot_z r end.


(** The settings with [mirrorMode] replaced. *)
Definition withMirror (mirror : bool) (s : Settings) : Settings :=
  {| trackingSmoothing := trackingSmoothing s; trackingSpeed := trackingSpeed s;
     faceTrackingEnabled := faceTrackingEnabled s;
     bodyTrackingEnabled := bodyTrackingEnabled s;
     handTrackingEnabled := handTrackingEnabled s;
     lipSyncEnabled := lipSyncEnabled s;
     lipSyncSensitivity := lipSyncSensitivity s;
     blinkEnabled := blinkEnabled s; blinkInterval := blinkInterval s;
     idleAnimationEnabled := idleAnimationEnabled s;
     mirrorMode := mirror |}.

End Pipeline.

(** * The held rotation on IEEE 754 doubles

    JavaScript numbers are binary64 floats.  The exact rationals above have
    no signed zero and no rounding; where a property is about the stored bits
    of a number, the lines concerned are read again on [spec_float], the
    Standard Library's specification of IEEE 754 arithmetic, with 53 bits of
    mantissa and round to nearest even. *)

Abbreviation double := spec_float.

Definition add64 : double → double → double := SFadd 53 1024.
Definition sub64 : double → double → double := SFsub 53 1024.
Definition mul64 : double → double → double := SFmul 53 1024.
Definition neg64 : double → double := SFopp.
Definition lt64 : double → double → bool := SFltb.
(** [a === b] on numbers. *)
Definition eq64 : double → double → bool := SFeqb.

Definition double_of_Z (n : Z) : double := binary_normalize 53 1024 n 0 false.

Definition positiveZero : double := S754_zero false.
Definition negativeZero : double := S754_zero true.
(** The literal [0.5]. *)
Definition half64 : double := S754_finite false 4503599627370496 (-53).

Definition finite64 (x : double) : bool :=
  match x with
  | S754_zero _ | S754_finite _ _ _ => true
  | S754_infinity _ | S754_nan => false
  end.

Definition signbit (x : double) : bool :=
  match x with
  | S754_zero s | S754_infinity s | S754_finite s _ _ => s
  | S754_nan => false
  end.

(** Lines 237-239. *)
Definition lerp64 (a b t : double) : double :=
  add64 a (mul64 (sub64 b a) t).

Record Rotation64 := {
  rot64_x : double;
  rot64_y : double;
  rot64_z : double;
}.

(** Lines 136 and 142: the yaw stored for a nose tip at [x]. *)
Definition yaw64 (mirrorMode : bool) (x : double) : double :=
  let yaw := mul64 (sub64 x half64) (double_of_Z 60) in
  if mirrorMode then neg64 yaw else yaw.

(** Lines 199-205 on a tick that detected no face.  Lines 116-155 have left
    the rotation object alone, and [trackingData.face] and
    [newTrackingData.face] are one object (line 112), so both arguments of
    [lerp] are read from the rotation [held] since the tick before. *)
Definition smoothingOfHeld64 (trackingSmoothing : double) (held : Rotation64)
  : Rotation64 :=
  if lt64 positiveZero trackingSmoothing then
    let smooth := trackingSmoothing in
    {| rot64_x := lerp64 (rot64_x held) (rot64_x held)
                    (sub64 (double_of_Z 1) smooth);
       rot64_y := lerp64 (rot64_y held) (rot64_y held)
                    (sub64 (double_of_Z 1) smooth);
       rot64_z := lerp64 (rot64_z held) (rot64_z held)
                    (sub64 (double_of_Z 1) smooth) |}
  else held.

(** * Creating the landmarkers (lines 34-84 of the tracking hook) *)

(** A promise that resolves with a value or rejects with an error. *)
Inductive Outcome (A : Type) :=
  | Resolves (a : A)
  | Rejects (errMessage : string).
Arguments Resolves {A} a.
Arguments Rejects {A} errMessage.

(** The three refs; [None] is [null]. *)
Record Landmarkers (L : Type) := {
  faceLandmarkerRef : option L;
  poseLandmarkerRef : option L;
  handLandmarkerRef : option L;
}.
Arguments faceLandmarkerRef {L} _.
Arguments poseLandmarkerRef {L} _.
Arguments handLandmarkerRef {L} _.

(** One [if (settings...) ref.current = await create(...)] inside the [try]:
    the refs, and whether the [try] block is still running. *)
Definition createIf {L} (enabled : bool) (created : Outcome L)
    (assign : L → Landmarkers L → Landmarkers L)
    (st : Landmarkers L * bool) : Landmarkers L * bool :=
  if st.2 && enabled then
    match created with
    | Resolves l => (assign l st.1, true)
    | Rejects _ => (st.1, false)
    end
  else st.

(** Lines 35-81.  The result is the refs and whether the success message was
    logged; [vision] is the outcome of [FilesetResolver.forVisionTasks], the
    other three those of the [createFromOptions] calls. *)
Definition initializeMediaPipe {L} (settings : Settings) (vision : Outcome unit)
    (createFace createPose createHand : Outcome L) (refs : Landmarkers L)
  : Landmarkers L * bool :=
  match vision with
  | Rejects _ => (refs, false)
  | Resolves _ =>
    createIf (handTrackingEnabled settings) createHand
      (λ l r, {| faceLandmarkerRef := faceLandmarkerRef r;
                 poseLandmarkerRef := poseLandmarkerRef r;
                 handLandmarkerRef := Some l |})
      (createIf (bodyTrackingEnabled settings) createPose
         (λ l r, {| faceLandmarkerRef := faceLandmarkerRef r;
                    poseLandmarkerRef := Some l;
                    handLandmarkerRef := handLandmarkerRef r |})
         (createIf (faceTrackingEnabled settings) createFace
            (λ l r, {| faceLandmarkerRef := Some l;
                       poseLandmarkerRef := poseLandmarkerRef r;
                       handLandmarkerRef := handLandmarkerRef r |})
            (refs, true)))
  end.

(** * The application component (src/App.jsx)

    The component's state is the record [AppState]; an event handler is a
    function on it, built from the setters of the state hooks.  What a handler
    reads from its closure or from the browser is an argument. *)

Definition Math_min (a b : Qc) : Qc := if decide (a ≤ b) then a else b.

(** [array.slice(-n)]: the last [n] elements, or all of them. *)
Definition slice_end {A} (n : nat) (l : list A) : list A :=
  drop (length l - n) l.

Record LogEntry := { timestamp : string; message : string; type : string }.

(** The fields of [debugData] the handlers write are [trackingStatus] and
    [lastError]; of the settings, [debugMode] and [keyboardShortcuts]. *)
Record AppState := {
  isTracking : bool;
  isMicEnabled : bool;
  micLevel : Qc;
  transform : ModelTransform;
  debugMode : bool;
  keyboardShortcuts : bool;
  showSettings : bool;
  trackingStatus : string;
  lastError : option string;
  logs : list LogEntry;
}.

Definition setIsTracking (v : bool) (s : AppState) : AppState :=
  {| isTracking := v; isMicEnabled := isMicEnabled s; micLevel := micLevel s;
     transform := transform s; debugMode := debugMode s;
     keyboardShortcuts := keyboardShortcuts s; showSettings := showSettings s;
     trackingStatus := trackingStatus s; lastError := lastError s;
     logs := logs s |}.

Definition setIsMicEnabled (v : bool) (s : AppState) : AppState :=
  {| isTracking := isTracking s; isMicEnabled := v; micLevel := micLevel s;
     transform := transform s; debugMode := debugMode s;
     keyboardShortcuts := keyboardShortcuts s; showSettings := showSettings s;
     trackingStatus := trackingStatus s; lastError := lastError s;
     logs := logs s |}.

Definition setMicLevel (v : Qc) (s : AppState) : AppState :=
  {| isTracking := isTracking s; isMicEnabled := isMicEnabled s; micLevel := v;
     transform := transform s; debugMode := debugMode s;
     keyboardShortcuts := keyboardShortcuts s; showSettings := showSettings s;
     trackingStatus := trackingStatus s; lastError := lastError s;
     logs := logs s |}.

Definition setTransform (f : ModelTransform → ModelTransform) (s : AppState)
  : AppState :=
  {| isTracking := isTracking s; isMicEnabled := isMicEnabled s;
     micLevel := micLevel s; transform := f (transform s);
     debugMode := debugMode s; keyboardShortcuts := keyboardShortcuts s;
     showSettings := showSettings s; trackingStatus := trackingStatus s;
     lastError := lastError s; logs := logs s |}.

Definition setModelPosition (f : LandmarkPoint → LandmarkPoint)
  : AppState → AppState :=
  setTransform (λ t, {| modelPosition := f (modelPosition t);
                        modelScale := modelScale t;
                        modelRotation := modelRotation t |}).

Definition setModelScale (f : Qc → Qc) : AppState → AppState :=
  setTransform (λ t, {| modelPosition := modelPosition t;
                        modelScale := f (modelScale t);
                        modelRotation := modelRotation t |}).

Definition setModelRotation (f : Qc → Qc) : AppState → AppState :=
  setTransform (λ t, {| modelPosition := modelPosition t;
                        modelScale := modelScale t;
                        modelRotation := f (modelRotation t) |}).

Definition setDebugMode (f : bool → bool) (s : AppState) : AppState :=
  {| isTracking := isTracking s; isMicEnabled := isMicEnabled s;
     micLevel := micLevel s; transform := transform s;
     debugMode := f (debugMode s); keyboardShortcuts := keyboardShortcuts s;
     showSettings := showSettings s; trackingStatus := trackingStatus s;
     lastError := lastError s; logs := logs s |}.

Definition setShowSettings (f : bool → bool) (s : AppState) : AppState :=
  {| isTracking := isTracking s; isMicEnabled := isMicEnabled s;
     micLevel := micLevel s; transform := transform s;
     debugMode := debugMode s; keyboardShortcuts := keyboardShortcuts s;
     showSettings := f (showSettings s); trackingStatus := trackingStatus s;
     lastError := lastError s; logs := logs s |}.

Definition setTrackingStatus (v : string) (s : AppState) : AppState :=
  {| isTracking := isTracking s; isMicEnabled := isMicEnabled s;
     micLevel := micLevel s; transform := transform s;
     debugMode := debugMode s; keyboardShortcuts := keyboardShortcuts s;
     showSettings := showSettings s; trackingStatus := v;
     lastError := lastError s; logs := logs s |}.

Definition setLastError (v : option string) (s : AppState) : AppState :=
  {| isTracking := isTracking s; isMicEnabled := isMicEnabled s;
     micLevel := micLevel s; transform := transform s;
     debugMode := debugMode s; keyboardShortcuts := keyboardShortcuts s;
     showSettings := showSettings s; trackingStatus := trackingStatus s;
     lastError := v; logs := logs s |}.

Definition setLogs (f : list LogEntry → list LogEntry) (s : AppState)
  : AppState :=
  {| isTracking := isTracking s; isMicEnabled := isMicEnabled s;
     micLevel := micLevel s; transform := transform s;
     debugMode := debugMode s; keyboardShortcuts := keyboardShortcuts s;
     showSettings := showSettings s; trackingStatus := trackingStatus s;
     lastError := lastError s; logs := f (logs s) |}.

(** Line 79: the updater passed to [setLogs]. *)
Definition appendLog (entry : LogEntry) (prev : list LogEntry)
  : list LogEntry :=
  slice_end 49 prev ++ [entry].

(** Lines 77-80; [now] is the value of [new Date().toLocaleTimeString()]. *)
Definition addLog (now message type : string) : AppState → AppState :=
  setLogs (appendLog {| timestamp := now; message := message; type := type |}).

(** What a handler takes from outside the state: the [isTracking] and
    [isMicEnabled] its closures captured, the outcomes of the two
    [getUserMedia] calls (for the microphone, with the bytes the analyser
    gives), the message of a [TypeError] of [reduce], and the clock. *)
Record Env := {
  seenTracking : bool;
  seenMicEnabled : bool;
  camera : Outcome unit;
  microphone : Outcome (list Z);
  reduceError : string;
  localeTime : string;
}.

(** Lines 141-163. *)
Definition toggleTracking (env : Env) (s : AppState) : AppState :=
  if seenTracking env then
    addLog (localeTime env) "トラッキング停止" "info"
      (setTrackingStatus "stopped" (setIsTracking false s))
  else
    match camera env with
    | Resolves _ =>
      addLog (localeTime env) "トラッキング開始" "success"
        (setTrackingStatus "running" (setIsTracking true s))
    | Rejects errMessage =>
      setLastError (Some errMessage)
        (addLog (localeTime env) ("カメラエラー: " +:+ errMessage) "error" s)
    end.

(** Lines 179-185.  The result is the state and whether the next frame was
    requested; [None] is the [TypeError] of [reduce] on an empty array.
    [isMicEnabled] is the constant of the closure of [toggleMicrophone]. *)
Definition updateLevel (isMicEnabled : bool) (dataArray : list Z)
    (s : AppState) : option (AppState * bool) :=
  if negb isMicEnabled then Some (s, false)
  else
    match dataArray with
    | [] => None
    | a :: rest =>
      let avg := Qc_of_Z (foldl Z.add a rest)
                 / Qc_of_Z (Z.of_nat (length dataArray)) in
      Some (setMicLevel (avg / num 255) s, true)
    end.

(** Lines 166-194. *)
Definition toggleMicrophone (env : Env) (s : AppState) : AppState :=
  if seenMicEnabled env then
    addLog (localeTime env) "マイク無効化" "info" (setIsMicEnabled false s)
  else
    match microphone env with
    | Resolves dataArray =>
      match updateLevel (seenMicEnabled env) dataArray s with
      | Some (s, _) =>
        addLog (localeTime env) "マイク有効化" "success"
          (setIsMicEnabled true s)
      | None =>
        addLog (localeTime env) ("マイクエラー: " +:+ reduceError env) "error" s
      end
    | Rejects errMessage =>
      addLog (localeTime env) ("マイクエラー: " +:+ errMessage) "error" s
    end.

Record KeyboardEvent := { key : string; shiftKey : bool }.

(** Lines 200-247. *)
Definition handleKeyDown (env : Env) (e : KeyboardEvent) (s : AppState)
  : AppState :=
  let step := if shiftKey e then num 0.1 else num 0.02 in
  let scaleStep := if shiftKey e then num 0.2 else num 0.05 in
  let pressed keys := bool_decide (key e ∈ keys) in
  if pressed ["ArrowUp"] then
    setModelPosition (λ p, {| lm_x := lm_x p; lm_y := lm_y p + step;
                              lm_z := lm_z p |}) s
  else if pressed ["ArrowDown"] then
    setModelPosition (λ p, {| lm_x := lm_x p; lm_y := lm_y p - step;
                              lm_z := lm_z p |}) s
  else if pressed ["ArrowLeft"] then
    setModelPosition (λ p, {| lm_x := lm_x p - step; lm_y := lm_y p;
                              lm_z := lm_z p |}) s
  else if pressed ["ArrowRight"] then
    setModelPosition (λ p, {| lm_x := lm_x p + step; lm_y := lm_y p;
                              lm_z := lm_z p |}) s
  else if pressed ["+"; "="] then
    setModelScale (λ s, Math_min (s + scaleStep) (num 3)) s
  else if pressed ["-"; "_"] then
    setModelScale (λ s, Math_max (s - scaleStep) (num 0.1)) s
  else if pressed ["r"; "R"] then
    setModelRotation (λ r, r + (if shiftKey e then - num 10 else num 10)) s
  else if pressed ["t"; "T"] then toggleTracking env s
  else if pressed ["m"; "M"] then toggleMicrophone env s
  else if pressed ["d"; "D"] then setDebugMode negb s
  else if pressed ["Escape"] then setShowSettings negb s
  else s.

(** Lines 197-251: the listener is there while [keyboardShortcuts] is set. *)
Definition keydown (env : Env) (e : KeyboardEvent) (s : AppState) : AppState :=
  if keyboardShortcuts s then handleKeyDown env e s else s.

(** A run of key presses, each with what its handler takes from outside. *)
Definition keysFrom (s : AppState) (inputs : list (Env * KeyboardEvent))
  : AppState :=
  foldl (λ s input, keydown input.1 input.2 s) s inputs.

(** Lines 11-66: the component's first state. *)
Definition initialApp : AppState :=
  {| isTracking := false; isMicEnabled := false; micLevel := 0;
     transform := {| modelPosition := {| lm_x := 0; lm_y := - num 0.5;
                                         lm_z := 0 |};
                     modelScale := 1; modelRotation := 0 |};
     debugMode := false; keyboardShortcuts := true; showSettings := true;
     trackingStatus := "idle"; lastError := None; logs := [] |}.

(** * Inputs and states of the concrete runs *)

(** ** A host for the examples

    [Math.atan2] is exact at the points the examples evaluate it: on the x
    axis at or right of the origin, where its value is 0.  [Math.sin] is
    likewise only evaluated at 0.  [Math.PI] is the double that JavaScript
    uses, and [degToRad] multiplies by [Math.PI / 180]. *)
Definition double_PI : Qc := num (884279719003555 # 281474976710656).

Definition exampleHost : Host :=
  {| Math_atan2 := λ y x, 0;
     Math_sin := λ x, 0;
     Math_PI := double_PI;
     degToRad := λ d, d * (double_PI / num 180) |}.

(** A tick of the tracking loop, and the rig effect, on that host. *)
Definition tick := predict (host := exampleHost) true.
Definition effect := useVRMAnimation (host := exampleHost).

(** ** Inputs *)

(** The settings the application starts with, except that mirroring is off. *)
Definition defaultSettings : Settings :=
  {| trackingSmoothing := num 0.5; trackingSpeed := 1;
     faceTrackingEnabled := true; bodyTrackingEnabled := true;
     handTrackingEnabled := true; lipSyncEnabled := true;
     lipSyncSensitivity := num 0.7; blinkEnabled := true;
     blinkInterval := Some (num 4); idleAnimationEnabled := true;
     mirrorMode := false |}.

Definition unsetInterval (s : Settings) : Settings :=
  {| trackingSmoothing := trackingSmoothing s; trackingSpeed := trackingSpeed s;
     faceTrackingEnabled := faceTrackingEnabled s;
     bodyTrackingEnabled := bodyTrackingEnabled s;
     handTrackingEnabled := handTrackingEnabled s;
     lipSyncEnabled := lipSyncEnabled s;
     lipSyncSensitivity := lipSyncSensitivity s;
     blinkEnabled := blinkEnabled s; blinkInterval := None;
     idleAnimationEnabled := idleAnimationEnabled s;
     mirrorMode := mirrorMode s |}.

Definition landmark (x y : Qc) : LandmarkPoint :=
  {| lm_x := x; lm_y := y; lm_z := 0 |}.

(** A face of 478 landmarks with the nose tip at [(noseX, 0.5)] and level
    eyes at [(0.45, 0.5)] and [(0.55, 0.5)]. *)
Definition faceAt (noseX : Qc) : list LandmarkPoint :=
  <[1%nat := landmark noseX (num 0.5)]>
    (<[33%nat := landmark (num 0.45) (num 0.5)]>
       (<[263%nat := landmark (num 0.55) (num 0.5)]> (replicate 478 origin))).

(** A body of 33 landmarks, shoulders, elbows and wrists on a diagonal. *)
Definition bodyLandmarks : list LandmarkPoint :=
  <[11%nat := landmark (num 0.6) (num 0.4)]>
    (<[13%nat := landmark (num 0.7) (num 0.5)]>
       (<[15%nat := landmark (num 0.8) (num 0.6)]> (replicate 33 origin))).

(** A hand of 21 landmarks. *)
Definition handLandmarkList : list LandmarkPoint :=
  <[9%nat := landmark (num 0.5) (num 0.5)]> (replicate 21 origin).

Definition oneFace (noseX : Qc) (shapes : list Category) : Detection FaceResults :=
  Returns {| faceLandmarks := Some [faceAt noseX];
             faceBlendshapes :=
               match shapes with
               | [] => Some []
               | _ => Some [ {| categories := shapes |} ]
               end |}.

Definition noFace : Detection FaceResults :=
  Returns {| faceLandmarks := Some []; faceBlendshapes := Some [] |}.

Definition onePose : Detection PoseResults :=
  Returns {| poseLandmarks := Some [bodyLandmarks] |}.

Definition noPose : Detection PoseResults :=
  Returns {| poseLandmarks := Some [] |}.

Definition leftHandOnly : Detection HandResults :=
  Returns {| handLandmarks := Some [handLandmarkList];
             handedness := [[ {| categoryName := "Left"; score := 1 |} ]] |}.

Definition noHands : Detection HandResults :=
  Returns {| handLandmarks := Some []; handedness := [] |}.

Definition detectors (f : Detection FaceResults) (p : Detection PoseResults)
    (h : Detection HandResults) : Detectors :=
  {| faceLandmarker := Some f; poseLandmarker := Some p;
     handLandmarker := Some h |}.

(** The nose tip at x = 2/3 gives a raw yaw of (2/3 - 1/2) * 60 = 10. *)
Definition yaw10 : Detectors := detectors (oneFace (num (2 # 3)) []) noPose noHands.

Definition fullRig : VRM :=
  {| humanoid := Some {[ "head"; "chest"; "leftUpperArm"; "rightUpperArm";
                          "leftLowerArm"; "rightLowerArm"; "leftHand";
                          "rightHand" ]};
     expressionManager := true; lookAt := true |}.

Definition restTransform : ModelTransform :=
  {| modelPosition := origin; modelScale := 1; modelRotation := 0 |}.

Definition withShapes (shapes : gmap string Qc) : TrackingData :=
  {| td_face := {| rotation := rotation initialFace;
                   position := origin; blendShapes := shapes |};
     td_pose := initialPose; td_hands := initialHands |}.

Definition jawAjar : TrackingData := withShapes {[ "jawOpen" := num 0.2 ]}.

Definition broadSmile : TrackingData :=
  withShapes {[ "mouthSmileLeft" := 1; "mouthSmileRight" := 1 ]}.

Definition quiet : Detectors := detectors noFace noPose noHands.

(** The state after one tick that saw a face with a raw yaw of 10. *)
Definition afterYaw10 : HookState := tick defaultSettings yaw10 initialState.



(** The left hand is reported on the first tick and not on the second. *)
Definition leftHandSeen : Detectors := detectors noFace noPose leftHandOnly.

Definition afterLeftHand : HookState :=
  tick defaultSettings leftHandSeen initialState.

(** The face detector throws; the pose and hand detectors have results. *)
Definition faceFails : Detectors := detectors Throws onePose leftHandOnly.

(** The same pose and hand results next to a face detector that returns. *)
Definition faceQuiet : Detectors := detectors noFace onePose leftHandOnly.

(** ** Further inputs *)

(** A face of 100 landmarks: too few for the indices a tick reads. *)
Definition shortFace : Detectors :=
  detectors (Returns {| faceLandmarks := Some [replicate 100 origin];
                        faceBlendshapes := Some [] |})
            noPose noHands.




(** Two ticks with complete results. *)
Definition twoTicks : list (Settings * Detectors) :=
  [ (defaultSettings, yaw10); (defaultSettings, faceQuiet) ].

(** A press of [+] with shift while the camera and the microphone are
    refused. *)
Definition refused : Env :=
  {| seenTracking := false; seenMicEnabled := false;
     camera := Rejects "Permission denied";
     microphone := Rejects "Permission denied";
     reduceError := "Reduce of empty array with no initial value";
     localeTime := "12:00:00" |}.

Definition bigPlus : KeyboardEvent := {| key := "+"; shiftKey := true |}.

Definition logEntry (message : string) : LogEntry :=
  {| timestamp := "12:00:00"; message := message; type := "info" |}.

(** The microphone is granted and loud when [m] is pressed. *)
Definition granted : Env :=
  {| seenTracking := false; seenMicEnabled := false;
     camera := Resolves ();
     microphone := Resolves [255; 255]%Z;
     reduceError := "Reduce of empty array with no initial value";
     localeTime := "12:00:00" |}.

Definition mKey : KeyboardEvent := {| key := "m"; shiftKey := false |}.

(** The pose detector throws after a face with a raw yaw of 10 and an open
    jaw. *)
Definition poseFails : Detectors :=
  detectors (oneFace (num (2 # 3)) [ {| categoryName := "jawOpen"; score := 1 |} ])
            Throws leftHandOnly.




(** A rotation of three negative zeros, as a tick stores it with
    [mirrorMode] on, no smoothing, the nose tip at x = 0.5 and level eyes. *)
Definition negativeZeros : Rotation64 :=
  {| rot64_x := negativeZero; rot64_y := negativeZero;
     rot64_z := negativeZero |}.

(** * Properties *)

Section Properties.

Context {host : Host}.

(** ** Arithmetic on canonical rationals *)

Lemma this_plus (a b : Qc) : (this (a + b) == this a + this b)%Q.
Proof. apply Qred_correct. Qed.

Lemma this_mult (a b : Qc) : (this (a * b) == this a * this b)%Q.
Proof. apply Qred_correct. Qed.

Lemma this_opp (a : Qc) : (this (- a) == - this a)%Q.
Proof. apply Qred_correct. Qed.

Lemma this_minus (a b : Qc) : (this (a - b) == this a - this b)%Q.
Proof. unfold Qcminus. rewrite this_plus, this_opp. reflexivity. Qed.

Lemma this_num (x : Q) : (this (num x) == x)%Q.
Proof. apply Qred_correct. Qed.

Lemma this_of_Z (n : Z) : this (Qc_of_Z n) = inject_Z n.
Proof. reflexivity. Qed.

(** Moves an order goal on [Qc] to [Q], where [lra] and [nra] apply; a
    division by a literal becomes a product with its computed inverse. *)
Ltac to_Q :=
  unfold Qcle, Qclt, Qcdiv in *;
  repeat first
    [ rewrite this_plus in * | rewrite this_mult in * | rewrite this_minus in *
    | rewrite this_opp in * | rewrite this_num in * | rewrite this_of_Z in * ];
  repeat match goal with
  | |- context [this (/ num ?x)] =>
    let v := eval vm_compute in (this (/ num x)) in
    change (this (/ num x)) with v in *
  | _ : context [this (/ num ?x)] |- _ =>
    let v := eval vm_compute in (this (/ num x)) in
    change (this (/ num x)) with v in *
  end;
  change (this 0) with 0%Q in *; change (this 1) with 1%Q in *.

Lemma Qc_eq_Q (a b : Qc) : (this a == this b)%Q → a = b.
Proof. apply Qc_is_canon. Qed.

Lemma lerp_same (a t : Qc) : lerp a a t = a.
Proof. unfold lerp. ring. Qed.

Lemma or_zero_self (v : Qc) : (if decide (v = 0) then 0 else v) = v.
Proof. case_decide; congruence. Qed.

Lemma js_or_self (v : Qc) : js_or (Some v) 0 = v.
Proof. apply or_zero_self. Qed.


Lemma Math_max_le (a b c : Qc) : a ≤ c → b ≤ c → Math_max a b ≤ c.
Proof. unfold Math_max. case_decide; auto. Qed.

Lemma Math_max_ge (a b c : Qc) : c ≤ a → c ≤ Math_max a b.
Proof.
  unfold Math_max. case_decide; [|done]. intros. by trans a.
Qed.

(** A score read with default 0 stays within the bounds of the scores. *)
Lemma js_or_unit (m : gmap string Qc) (k : string) :
  (∀ k v, m !! k = Some v → 0 ≤ v ∧ v ≤ 1) →
  0 ≤ js_or (m !! k) 0 ∧ js_or (m !! k) 0 ≤ 1.
Proof.
  intros Hm. unfold js_or. destruct (m !! k) as [v|] eqn:E.
  - case_decide; [done|]. eauto.
  - done.
Qed.

(** ** Which block of the effect makes which write *)

Lemma applyHead_no_expression vrm rot settings name w :
  Expression name w ∉ applyHead vrm rot settings.
Proof.
  unfold applyHead. destruct (humanoid vrm); [|set_solver].
  destruct (hasBone _ _); set_solver.
Qed.

Lemma applyEyeLook_no_expression vrm bs name w :
  Expression name w ∉ applyEyeLook vrm bs.
Proof. unfold applyEyeLook. destruct (lookAt vrm); set_solver. Qed.

Lemma applyShoulder_writes bones bone p q w :
  w ∈ applyShoulder bones bone p q →
  bone ∈ bones ∧
  w = BoneRotation bone AxisZ
        (Math_atan2 (pt_y q - pt_y p) (pt_x q - pt_x p) - Math_PI / num 2).
Proof.
  unfold applyShoulder, hasBone. case_bool_decide; set_solver.
Qed.

Lemma applyElbow_writes bones bone p q w :
  w ∈ applyElbow bones bone p q →
  bone ∈ bones ∧
  w = BoneRotation bone AxisZ (Math_atan2 (pt_y q - pt_y p) (pt_x q - pt_x p)).
Proof.
  unfold applyElbow, hasBone. case_bool_decide; set_solver.
Qed.

Lemma applyPose_no_expression vrm td settings name w :
  Expression name w ∉ applyPose vrm td settings.
Proof.
  unfold applyPose. destruct (bodyTrackingEnabled settings); [|set_solver].
  destruct (humanoid vrm); [|set_solver].
  rewrite !elem_of_app.
  intros [H|[H|[H|H]]];
    (apply applyShoulder_writes in H || apply applyElbow_writes in H);
    by destruct H.
Qed.

Lemma applyHand_writes bones hands side bone ws w :
  applyHand bones hands side bone = Some ws → w ∈ ws →
  ∃ r, w = BoneRotation bone AxisZ r.
Proof.
  unfold applyHand. intros H Hw.
  destruct (hands !! side) as [hand|]; simpl in H; [|done].
  destruct (detected hand); [|set_solver].
  destruct (landmarks hand) as [lms|]; simpl in H; [|done].
  case_bool_decide; [|set_solver].
  destruct (hasBone bones bone); [|set_solver].
  destruct (lms !! 0%nat); simpl in H; [|done].
  destruct (lms !! 9%nat); simpl in H; [|done].
  set_solver.
Qed.

Lemma applyHands_writes vrm td settings w :
  w ∈ (applyHands vrm td settings).1 →
  ∃ r, w = BoneRotation "leftHand" AxisZ r ∨ w = BoneRotation "rightHand" AxisZ r.
Proof.
  unfold applyHands. destruct (handTrackingEnabled settings); [|set_solver].
  destruct (humanoid vrm) as [bones|]; [|set_solver].
  destruct (applyHand bones _ "left" _) as [wl|] eqn:El; [|set_solver].
  destruct (applyHand bones _ "right" _) as [wr|] eqn:Er; simpl.
  - rewrite elem_of_app. intros [H|H].
    + destruct (applyHand_writes _ _ _ _ _ _ El H) as [r ->]. eauto.
    + destruct (applyHand_writes _ _ _ _ _ _ Er H) as [r ->]. eauto.
  - intros H. destruct (applyHand_writes _ _ _ _ _ _ El H) as [r ->]. eauto.
Qed.

Lemma idleAnimation_writes vrm settings now w :
  w ∈ idleAnimation vrm settings now → ∃ r, w = BoneRotation "chest" AxisX r.
Proof.
  unfold idleAnimation. destruct (idleAnimationEnabled settings); [|set_solver].
  destruct (humanoid vrm); [|set_solver].
  destruct (hasBone _ _); [|set_solver]. set_solver.
Qed.

Lemma autoBlink_cases vrm td settings now :
  autoBlink vrm td settings now = [Expression "blink" 1]
  ∨ autoBlink vrm td settings now = [].
Proof.
  unfold autoBlink.
  repeat match goal with |- context [if ?b then _ else _] => destruct b end;
    auto.
Qed.

(** The expression weights of the effect come from the three expression
    blocks of the face part and from the automatic blink. *)
Lemma expression_sources vrm td mt settings micLevel nowBlink nowIdle name w :
  Expression name w
    ∈ useVRMAnimation (Some vrm) td mt settings micLevel nowBlink nowIdle →
  (faceTrackingEnabled settings = true ∧ expressionManager vrm = true ∧
   Expression name w
     ∈ applyBlink (blendShapes (td_face td)) settings
       ++ applyLipSync (blendShapes (td_face td)) settings micLevel
       ++ applyBrows (blendShapes (td_face td)))
  ∨ Expression name w ∈ autoBlink vrm td settings nowBlink.
Proof.
  unfold useVRMAnimation, applyModelTransform, applyFace.
  rewrite !elem_of_app. intros [H|[H|[H|H]]].
  - set_solver.
  - destruct (faceTrackingEnabled settings); [|set_solver].
    apply elem_of_app in H as [H|H];
      [by apply applyHead_no_expression in H|].
    destruct (expressionManager vrm); [|set_solver].
    left. repeat split; try done.
    rewrite !elem_of_app in H. rewrite ?elem_of_app.
    destruct H as [H|[H|[H|H]]]; auto.
    by apply applyEyeLook_no_expression in H.
  - by apply applyPose_no_expression in H.
  - destruct (applyHands vrm td settings) as [ws completed] eqn:E.
    apply elem_of_app in H as [H|H].
    + pose proof (applyHands_writes vrm td settings (Expression name w)) as P.
      rewrite E in P. destruct (P H) as [r [?|?]]; done.
    + destruct completed; [|set_solver].
      apply elem_of_app in H as [H|H]; [by right|].
      apply idleAnimation_writes in H as [r ?]. done.
Qed.

(** ** Expression weights *)

Lemma applyBlink_bounds bs settings name w :
  (∀ k v, bs !! k = Some v → 0 ≤ v ∧ v ≤ 1) →
  Expression name w ∈ applyBlink bs settings →
  name ∈ ["blink"; "blinkLeft"; "blinkRight"] ∧ 0 ≤ w ∧ w ≤ 1.
Proof.
  intros Hbs. unfold applyBlink.
  destruct (blinkEnabled settings); [|by intros ?%elem_of_nil].
  pose proof (js_or_unit bs "eyeBlinkLeft" Hbs) as [L0 L1].
  pose proof (js_or_unit bs "eyeBlinkRight" Hbs) as [R0 R1].
  rewrite !elem_of_cons, elem_of_nil.
  intros [H|[H|[H|[]]]]; injection H as -> ->;
    (split; [set_solver|]); try done.
  split; to_Q; lra.
Qed.

Lemma mouthOpen_bounds (trackingMouth micMouth sensitivity : Qc) :
  0 ≤ trackingMouth → trackingMouth ≤ 1 → 0 ≤ micMouth → micMouth ≤ 1 →
  0 ≤ sensitivity → sensitivity ≤ 1 →
  0 ≤ mouthOpen trackingMouth micMouth sensitivity
  ∧ mouthOpen trackingMouth micMouth sensitivity ≤ 1.
Proof.
  intros T0 T1 M0 M1 S0 S1. unfold mouthOpen.
  pose proof (Math_max_le _ _ _ T1 M1) as U.
  pose proof (Math_max_ge _ micMouth _ T0) as L.
  split; to_Q; nra.
Qed.

Lemma applyLipSync_bounds bs settings micLevel name w :
  (∀ k v, bs !! k = Some v → 0 ≤ v ∧ v ≤ 1) →
  0 ≤ micLevel → micLevel ≤ 1 →
  0 ≤ lipSyncSensitivity settings → lipSyncSensitivity settings ≤ 1 →
  Expression name w ∈ applyLipSync bs settings micLevel →
  (name = "aa" ∧ 0 ≤ w ∧ w ≤ 1) ∨ (name = "happy" ∧ 0 ≤ w ∧ w ≤ num 2).
Proof.
  intros Hbs M0 M1 S0 S1. unfold applyLipSync.
  destruct (lipSyncEnabled settings); [|by intros ?%elem_of_nil].
  pose proof (js_or_unit bs "jawOpen" Hbs) as [J0 J1].
  pose proof (js_or_unit bs "mouthSmileLeft" Hbs) as [L0 L1].
  pose proof (js_or_unit bs "mouthSmileRight" Hbs) as [R0 R1].
  rewrite !elem_of_cons, elem_of_nil.
  intros [H|[H|[]]]; injection H as -> ->.
  - left. split; [done|]. rewrite or_zero_self. by apply mouthOpen_bounds.
  - right. split; [done|]. split; to_Q; lra.
Qed.

Lemma applyBrows_bounds bs name w :
  (∀ k v, bs !! k = Some v → 0 ≤ v ∧ v ≤ 1) →
  Expression name w ∈ applyBrows bs →
  (name = "surprised" ∧ 0 ≤ w ∧ w ≤ 1) ∨ (name = "angry" ∧ 0 ≤ w ∧ w ≤ num 2).
Proof.
  intros Hbs. unfold applyBrows.
  pose proof (js_or_unit bs "browInnerUp" Hbs) as [U0 U1].
  pose proof (js_or_unit bs "browDownLeft" Hbs) as [L0 L1].
  pose proof (js_or_unit bs "browDownRight" Hbs) as [R0 R1].
  rewrite !elem_of_cons, elem_of_nil.
  intros [H|[H|[]]]; injection H as -> ->.
  - left. done.
  - right. split; [done|]. split; to_Q; lra.
Qed.

(** C3 (as amended).  With scores, microphone level and lip-sync sensitivity
    in [[0,1]], every weight the effect hands to [setValue] is one of the
    seven named expressions; [blink], [blinkLeft], [blinkRight], [aa] and
    [surprised] lie in [[0,1]], while [happy] and [angry], being sums of two
    scores, lie in [[0,2]]. *)
Theorem expression_weights_bounded
    vrm td mt settings micLevel nowBlink nowIdle name w :
  (∀ k v, blendShapes (td_face td) !! k = Some v → 0 ≤ v ∧ v ≤ 1) →
  0 ≤ micLevel ∧ micLevel ≤ 1 →
  0 ≤ lipSyncSensitivity settings ∧ lipSyncSensitivity settings ≤ 1 →
  Expression name w
    ∈ useVRMAnimation vrm td mt settings micLevel nowBlink nowIdle →
  (name ∈ ["blink"; "blinkLeft"; "blinkRight"; "aa"; "surprised"]
   ∧ 0 ≤ w ∧ w ≤ 1)
  ∨ (name ∈ ["happy"; "angry"] ∧ 0 ≤ w ∧ w ≤ num 2).
Proof.
  intros Hbs [M0 M1] [S0 S1] H.
  destruct vrm as [vrm|]; [|by apply elem_of_nil in H].
  apply expression_sources in H as [(_ & _ & H)|H].
  - rewrite !elem_of_app in H. destruct H as [H|[H|H]].
    + apply applyBlink_bounds in H as [Hn Hw]; [|done]. left. set_solver.
    + apply applyLipSync_bounds in H as [[-> Hw]|[-> Hw]]; try done.
      * left. set_solver.
      * right. set_solver.
    + apply applyBrows_bounds in H as [[-> Hw]|[-> Hw]]; try done.
      * left. set_solver.
      * right. set_solver.
  - destruct (autoBlink_cases vrm td settings nowBlink) as [E|E];
      rewrite E in H; [|by apply elem_of_nil in H].
    apply list_elem_of_singleton in H. injection H as -> ->.
    left. split; [set_solver|]. split; to_Q; lra.
Qed.

(** ** Mouth opening *)

(** C7.  With lip sync enabled, any weight written to [aa] is
    [max(jawOpen, micLevel) * lipSyncSensitivity], a missing [jawOpen] counting
    as 0, and it is written whenever the face part reaches the expressions;
    [mouthOpen 0.2 0.6 0.7 = 0.42]; and for a fixed non-negative sensitivity
    the weight does not decrease when the larger of the two signals grows. *)
Theorem mouth_open_fusion vrm td mt settings micLevel nowBlink nowIdle :
  lipSyncEnabled settings = true →
  let writes :=
    useVRMAnimation (Some vrm) td mt settings micLevel nowBlink nowIdle in
  let expected :=
    Math_max (js_or (blendShapes (td_face td) !! "jawOpen") 0) micLevel
    * lipSyncSensitivity settings in
  (∀ w, Expression "aa" w ∈ writes → w = expected)
  ∧ (faceTrackingEnabled settings = true → expressionManager vrm = true →
     Expression "aa" expected ∈ writes)
  ∧ mouthOpen (num 0.2) (num 0.6) (num 0.7) = num 0.42
  ∧ (∀ tm mic tm' mic' sensitivity, 0 ≤ sensitivity →
       Math_max tm mic ≤ Math_max tm' mic' →
       mouthOpen tm mic sensitivity ≤ mouthOpen tm' mic' sensitivity).
Proof.
  intros Hlip writes expected. subst writes expected. repeat split.
  - intros w H. apply expression_sources in H as [(_ & _ & H)|H].
    + unfold applyBlink, applyLipSync, applyBrows in H. rewrite Hlip in H.
      rewrite js_or_self in H. unfold mouthOpen in H.
      destruct (blinkEnabled settings); set_solver.
    + destruct (autoBlink_cases vrm td settings nowBlink) as [E|E];
        rewrite E in H; set_solver.
  - intros Hface Hexp. unfold useVRMAnimation, applyFace, applyLipSync.
    rewrite Hface, Hexp, Hlip, js_or_self. unfold mouthOpen.
    rewrite !elem_of_app. right. left. right. right. left.
    apply list_elem_of_here.
  - apply Qc_eq_Q. reflexivity.
  - intros tm mic tm' mic' sensitivity S0 Hmax. unfold mouthOpen.
    to_Q. nra.
Qed.

(** ** The blink interval *)

(** C10.  The interval used by the automatic blink is never zero: an unset or
    zero [blinkInterval] is replaced by 4, so the remainder of [floor(t)] by
    it is always a number. *)
Theorem blink_interval_never_zero settings (t : Qc) :
  blinkIntervalOr4 settings ≠ 0
  ∧ (js_not (blinkInterval settings) = true → blinkIntervalOr4 settings = num 4)
  ∧ (∀ b, blinkInterval settings = Some b → b ≠ 0 →
          blinkIntervalOr4 settings = b)
  ∧ is_Some (js_rem (Math_floor t) (blinkIntervalOr4 settings)).
Proof.
  assert (N : blinkIntervalOr4 settings ≠ 0).
  { unfold blinkIntervalOr4, js_or.
    destruct (blinkInterval settings) as [b|]; [case_decide|]; done. }
  repeat split; [done|..].
  - unfold blinkIntervalOr4, js_or, js_not.
    destruct (blinkInterval settings) as [b|]; [|done].
    rewrite bool_decide_eq_true. case_decide; done.
  - intros b Hb Hn. unfold blinkIntervalOr4, js_or. rewrite Hb.
    by case_decide.
  - unfold js_rem. case_decide; [done|]. eauto.
Qed.

(** ** The automatic blink *)












(** ** Arm rotations *)

Lemma applyFace_bone vrm td settings micLevel bone a r :
  BoneRotation bone a r ∈ applyFace vrm td settings micLevel → bone = "head".
Proof.
  unfold applyFace, applyHead, applyBlink, applyLipSync, applyBrows,
    applyEyeLook.
  repeat match goal with
         | |- context [if ?b then _ else _] => destruct b
         | |- context [match ?o with Some _ => _ | None => _ end] => destruct o
         end;
    simpl; rewrite ?elem_of_cons, ?elem_of_nil; naive_solver.
Qed.

Lemma shoulder_write bones bone bone' p q a r :
  BoneRotation bone' a r ∈ applyShoulder bones bone p q ↔
  bone' = bone ∧ bone ∈ bones ∧ a = AxisZ
  ∧ r = Math_atan2 (pt_y q - pt_y p) (pt_x q - pt_x p) - Math_PI / num 2.
Proof.
  unfold applyShoulder, hasBone. case_bool_decide.
  - rewrite list_elem_of_singleton. naive_solver.
  - rewrite elem_of_nil. naive_solver.
Qed.

Lemma elbow_write bones bone bone' p q a r :
  BoneRotation bone' a r ∈ applyElbow bones bone p q ↔
  bone' = bone ∧ bone ∈ bones ∧ a = AxisZ
  ∧ r = Math_atan2 (pt_y q - pt_y p) (pt_x q - pt_x p).
Proof.
  unfold applyElbow, hasBone. case_bool_decide.
  - rewrite list_elem_of_singleton. naive_solver.
  - rewrite elem_of_nil. naive_solver.
Qed.



(** ** The stages of a tick *)

(** Unfolds the monad inside a stage. *)
Ltac run_M :=
  cbv beta iota delta [mbind M_bind mret M_ret throw defined detectForVideo
                       readFace writeFace writeHands] in *.

Lemma heap_eta (h : Heap) :
  {| faceObjs := faceObjs h; handsObjs := handsObjs h |} = h.
Proof. by destruct h. Qed.

Lemma set_rot_x_id f : set_rot_x (rot_x (rotation f)) f = f.
Proof. by destruct f as [[] ? ?]. Qed.
Lemma set_rot_y_id f : set_rot_y (rot_y (rotation f)) f = f.
Proof. by destruct f as [[] ? ?]. Qed.
Lemma set_rot_z_id f : set_rot_z (rot_z (rotation f)) f = f.
Proof. by destruct f as [[] ? ?]. Qed.

(** The smoothing step reads its two inputs through the same [face] object:
    each axis is replaced by [lerp v v (1 - smooth)], which is [v]; the heap
    comes out as it went in. *)
Lemma applySmoothing_aliased settings td td' h :
  face td' = face td →
  (applySmoothing settings td td' h).2 = h
  ∧ (is_Some (faceObjs h !! face td) →
     (applySmoothing settings td td' h).1 = Ok tt).
Proof.
  intros Hf. unfold applySmoothing. rewrite Hf. case_decide; [|done]. run_M.
  destruct (faceObjs h !! face td) as [f|] eqn:E; simpl; [|split; [done|]].
  - repeat progress
      (rewrite ?E, ?lerp_same, ?set_rot_x_id, ?set_rot_y_id, ?set_rot_z_id,
         ?(insert_id _ _ _ E), ?heap_eta; simpl).
    done.
  - by intros [? ?].
Qed.

Lemma faceTracking_spec settings dets f st h r h' :
  faceTracking settings dets f st h = (r, h') →
  handsObjs h' = handsObjs h
  ∧ (faceSeen settings dets = false → h' = h)
  ∧ (blendShapeOutput dets = false →
     ∀ l, blendShapes <$> faceObjs h' !! l = blendShapes <$> faceObjs h !! l)
  ∧ (∀ st', r = Ok st' →
       handsDetected st' = handsDetected st
       ∧ ¬ (faceTrackingEnabled settings = true
            ∧ faceLandmarker dets = Some Throws)).
Proof.
  unfold faceTracking, faceSeen, blendShapeOutput.
  destruct (faceLandmarker dets) as [[res|]|];
    destruct (faceTrackingEnabled settings); run_M; simpl;
    try (intros [= <- <-]; naive_solver).
  destruct (faceLandmarks res) as [[|lms ?]|];
    try (intros [= <- <-]; naive_solver).
  destruct (lms !! 1%nat) as [noseTip|]; [|intros [= <- <-]; naive_solver].
  destruct (lms !! 33%nat) as [leftEye|]; [|intros [= <- <-]; naive_solver].
  destruct (lms !! 263%nat) as [rightEye|]; [|intros [= <- <-]; naive_solver].
  destruct (faceObjs h !! face f) as [fd|] eqn:E; simpl;
    [|intros [= <- <-]; naive_solver].
  destruct (faceBlendshapes res) as [[|c ?]|]; simpl;
    rewrite ?lookup_insert_eq; intros [= <- <-]; simpl;
    (split; [done|]); (split; [done|]); (split; [|naive_solver]);
    try done; intros _ l0;
    (destruct (decide (l0 = face f)) as [->|];
     [by rewrite lookup_insert_eq, E | by rewrite lookup_insert_ne]).
Qed.

Lemma poseTracking_spec settings dets f st h r h' :
  poseTracking settings dets (f, st) h = (r, h') →
  h' = h
  ∧ (∀ f' st', r = Ok (f', st') →
       face f' = face f ∧ hands f' = hands f
       ∧ handsDetected st' = handsDetected st
       ∧ ¬ (bodyTrackingEnabled settings = true
            ∧ poseLandmarker dets = Some Throws)).
Proof.
  unfold poseTracking.
  destruct (poseLandmarker dets) as [[res|]|];
    destruct (bodyTrackingEnabled settings); run_M; simpl;
    try (intros [= <- <-]; naive_solver).
  destruct (poseLandmarks res) as [[|p ?]|];
    try (intros [= <- <-]; naive_solver).
  repeat match goal with
         | |- context [p !! ?i] => destruct (p !! i)
         end;
    intros [= <- <-]; naive_solver.
Qed.

Lemma eachHand_spec lms l hs : ∀ index st h r h',
  eachHand lms l index hs st h = (r, h') →
  faceObjs h' = faceObjs h
  ∧ (∀ l' hand, hand ∉ handLabels hs →
       handsObjs h' !! l' ≫= (.!! hand) = handsObjs h !! l' ≫= (.!! hand))
  ∧ (∀ st', r = Ok st' → ∀ hand, hand ∉ handLabels hs →
       handsDetected st' !! hand = handsDetected st !! hand).
Proof.
  induction hs as [|handedness rest IH]; intros index st h r h'; simpl.
  - run_M. intros [= <- <-]. naive_solver.
  - unfold handLabels. simpl. fold (handLabels rest). run_M.
    destruct (handedness !! 0%nat) as [c|]; simpl;
      [|intros [= <- <-]; naive_solver].
    destruct (handsObjs h !! l) as [o|] eqn:E; simpl;
      [|intros [= <- <-]; naive_solver].
    intros H. apply IH in H as (Hf & Hh & Hs). simpl in *.
    split; [done|]. split.
    + intros l' hand [Hne Hrest]%not_elem_of_cons.
      rewrite (Hh l' hand Hrest).
      destruct (decide (l' = l)) as [->|].
      * rewrite lookup_insert_eq, E. simpl. by rewrite lookup_insert_ne.
      * by rewrite lookup_insert_ne.
    + intros st' -> hand [Hne Hrest]%not_elem_of_cons.
      rewrite (Hs _ eq_refl hand Hrest). simpl. by rewrite lookup_insert_ne.
Qed.

Lemma handTracking_spec settings dets f st h r h' :
  handTracking settings dets f st h = (r, h') →
  faceObjs h' = faceObjs h
  ∧ (∀ l hand, handReported dets hand = false →
       handsObjs h' !! l ≫= (.!! hand) = handsObjs h !! l ≫= (.!! hand))
  ∧ (∀ st', r = Ok st' →
       (∀ hand, handReported dets hand = false →
          handsDetected st' !! hand = handsDetected st !! hand)
       ∧ ¬ (handTrackingEnabled settings = true
            ∧ handLandmarker dets = Some Throws)).
Proof.
  unfold handTracking, handReported.
  destruct (handLandmarker dets) as [[res|]|];
    destruct (handTrackingEnabled settings); run_M; simpl;
    try (intros [= <- <-]; naive_solver).
  destruct (handLandmarks res) as [[|lms ?]|];
    try (intros [= <- <-]; naive_solver).
  intros (Hf & Hh & Hs)%eachHand_spec. split; [done|]. split.
  - intros l' hand Hrep%bool_decide_eq_false. by apply Hh.
  - intros st' ->. split; [|naive_solver].
    intros hand Hrep%bool_decide_eq_false. by apply (Hs _ eq_refl).
Qed.

(** What one run of the [try] block does to the heap and what it returns. *)
Lemma predictBody_spec settings dets td h r h' :
  predictBody settings dets td h = (r, h') →
  faceObjs h' = faceObjs (faceTracking settings dets td newStatus h).2
  ∧ (faceSeen settings dets = false → faceObjs h' = faceObjs h)
  ∧ (blendShapeOutput dets = false →
     ∀ l, blendShapes <$> faceObjs h' !! l = blendShapes <$> faceObjs h !! l)
  ∧ (∀ l hand, handReported dets hand = false →
       handsObjs h' !! l ≫= (.!! hand) = handsObjs h !! l ≫= (.!! hand))
  ∧ (∀ f' st', r = Ok (f', st') →
       face f' = face td ∧ hands f' = hands td
       ∧ detectorThrows settings dets = false
       ∧ ∀ hand, handReported dets hand = false →
           handsDetected st' !! hand = handsDetected newStatus !! hand).
Proof.
  intros Hrun. unfold predictBody in Hrun.
  cbv beta iota delta [mbind M_bind mret M_ret] in Hrun.
  destruct (faceTracking settings dets td newStatus h) as [[st1|e1] h1] eqn:E1;
    apply faceTracking_spec in E1 as (F1 & F2 & F3 & F4); simpl.
  2:{ injection Hrun as <- <-. rewrite F1. split; [done|].
      split; [by intros ->%F2|].
      split; [done|]. split; [done|]. done. }
  destruct (poseTracking settings dets (td, st1) h1) as [[[f2 st2]|e2] h2] eqn:E2;
    apply poseTracking_spec in E2 as (-> & P2).
  2:{ injection Hrun as <- <-. rewrite F1. split; [done|].
      split; [by intros ->%F2|].
      split; [done|]. split; [done|]. done. }
  destruct (P2 _ _ eq_refl) as (Pf & Ph & Ps & Pt).
  destruct (F4 _ eq_refl) as (Fs & Ft).
  destruct (handTracking settings dets f2 st2 h1) as [[st3|e3] h3] eqn:E3;
    apply handTracking_spec in E3 as (H1 & H2 & H3).
  2:{ injection Hrun as <- <-. rewrite H1. split; [done|].
      split; [by intros ->%F2|].
      split; [done|]. split; [|done].
      intros l hand Hrep. by rewrite (H2 l hand Hrep), F1. }
  destruct (H3 _ eq_refl) as (Hs & Ht).
  destruct (applySmoothing_aliased settings td f2 h3 Pf) as [S1 S2].
  destruct (applySmoothing settings td f2 h3) as [[[]|e4] h4]; simpl in S1;
    subst h4; injection Hrun as <- <-; rewrite H1;
    (split; [done|]); (split; [by intros ->%F2|]); (split; [done|]);
    (split; [intros l hand Hrep; by rewrite (H2 l hand Hrep), F1|]);
    [|done].
  intros f' st' [= <- <-]. split; [done|]. split; [done|]. split.
  - unfold detectorThrows.
    assert (faceTrackingEnabled settings
            && match faceLandmarker dets with
               | Some Throws => true | _ => false
               end = false) as ->.
    { destruct (faceTrackingEnabled settings); [|done].
      destruct (faceLandmarker dets) as [[|]|]; try done. by destruct Ft. }
    assert (bodyTrackingEnabled settings
            && match poseLandmarker dets with
               | Some Throws => true | _ => false
               end = false) as ->.
    { destruct (bodyTrackingEnabled settings); [|done].
      destruct (poseLandmarker dets) as [[|]|]; try done. by destruct Pt. }
    assert (handTrackingEnabled settings
            && match handLandmarker dets with
               | Some Throws => true | _ => false
               end = false) as ->.
    { destruct (handTrackingEnabled settings); [|done].
      destruct (handLandmarker dets) as [[|]|]; try done. by destruct Ht. }
    done.
  - intros hand Hrep. by rewrite (Hs hand Hrep), Ps, Fs.
Qed.

(** ** Properties of a tick *)

(** Every run of [predict] asks for the next animation frame. *)
Lemma predict_reschedules ready settings dets s :
  scheduled (predict ready settings dets s) = S (scheduled s).
Proof.
  unfold predict. destruct ready; simpl; [|done].
  by destruct (predictBody _ _ _ _) as [[[? ?]|?] ?].
Qed.

(** The frame keeps its [face] and [hands] references across a tick. *)
Lemma predict_refs ready settings dets s :
  face (trackingData (predict ready settings dets s))
  = face (trackingData s)
  ∧ hands (trackingData (predict ready settings dets s))
    = hands (trackingData s).
Proof.
  unfold predict. destruct ready; simpl; [|done].
  destruct (predictBody _ _ _ _) as [[[f' st']|e] h'] eqn:E; simpl; [|done].
  apply predictBody_spec in E as (_ & _ & _ & _ & E).
  by destruct (E _ _ eq_refl) as (? & ? & _).
Qed.

Lemma sub64_same x : finite64 x = true → sub64 x x = positiveZero.
Proof.
  destruct x as [[]| | |s m e]; try done. intros _.
  unfold sub64, SFsub. rewrite Z.min_id, Z.sub_diag. done.
Qed.

Lemma lerp64_same x t :
  finite64 x = true → finite64 t = true →
  lerp64 x x t
  = match x with
    | S754_zero true => if signbit t then negativeZero else positiveZero
    | _ => x
    end.
Proof.
  intros Hx Ht. unfold lerp64. rewrite (sub64_same x Hx).
  destruct t as [st| | |st mt et]; try done;
    destruct x as [[]| | |[] m e]; try done; by destruct st.
Qed.

Lemma eq64_refl x : finite64 x = true → eq64 x x = true.
Proof.
  destruct x as [s| | |s m e]; try done. intros _.
  unfold eq64, SFeqb, SFcompare.
  rewrite Z.compare_refl, Pos.compare_cont_refl. by destruct s.
Qed.

(** C5 (as amended).  On a tick on which no face is detected the head
    rotation is held: in exact arithmetic the rotation of the hook's frame is
    what it was before the tick, for every smoothing setting and every
    outcome of the tick.  On doubles, the smoothing step leaves a held
    rotation untouched when [trackingSmoothing] is not above 0; otherwise,
    for finite numbers, each axis comes out numerically equal to what it held
    (never recomputed, never snapped to zero), with the same bits unless it
    held the negative zero, which becomes the positive zero when
    [1 - trackingSmoothing] has no sign bit. *)
Theorem head_rotation_held ready settings dets s smooth held :
  faceSeen settings dets = false →
  finite64 (sub64 (double_of_Z 1) smooth) = true →
  let after := smoothingOfHeld64 smooth held in
  let axes := [ (rot64_x held, rot64_x after); (rot64_y held, rot64_y after);
                (rot64_z held, rot64_z after) ] in
  rotation <$> faceOf (predict ready settings dets s) = rotation <$> faceOf s
  ∧ (lt64 positiveZero smooth = false → after = held)
  ∧ ∀ before now, (before, now) ∈ axes → finite64 before = true →
      eq64 now before = true
      ∧ (before ≠ negativeZero → now = before)
      ∧ (before = negativeZero → lt64 positiveZero smooth = true →
         now = if signbit (sub64 (double_of_Z 1) smooth)
               then negativeZero else positiveZero).
Proof.
  intros Hface Ht after axes. subst after axes. split; [|split].
  - unfold faceOf.
    destruct (predict_refs ready settings dets s) as [-> _].
    f_equal. unfold predict. destruct ready; simpl; [|done].
    destruct (predictBody _ _ _ _) as [[[f' st']|e] h'] eqn:E; simpl;
      apply predictBody_spec in E as (_ & E & _); by rewrite (E Hface).
  - unfold smoothingOfHeld64. by intros ->.
  - intros before now Hin Hfin.
    assert (now = if lt64 positiveZero smooth
                  then lerp64 before before (sub64 (double_of_Z 1) smooth)
                  else before) as ->.
    { unfold smoothingOfHeld64 in Hin.
      rewrite !elem_of_cons, elem_of_nil in Hin.
      destruct (lt64 positiveZero smooth);
        destruct Hin as [[= -> ->]|[[= -> ->]|[[= -> ->]|[]]]]; done. }
    destruct (lt64 positiveZero smooth); [|by rewrite eq64_refl].
    rewrite (lerp64_same _ _ Hfin Ht).
    destruct before as [[]| | |sb mb eb]; try done;
      try (by rewrite eq64_refl).
    by destruct (signbit _).
Qed.


(** C2 (as amended).  On a tick on which the hand detector does not report a
    hand, that hand's entry in the hook's frame (landmarks and [detected]
    flag) is the one it held before the tick; and when the tick publishes, the
    published detection status has [handsDetected] false for [left] and for
    [right] if not reported. *)
Theorem unreported_hand_is_held ready settings dets s hand :
  handReported dets hand = false →
  let s' := predict ready settings dets s in
  handsOf s' ≫= (.!! hand) = handsOf s ≫= (.!! hand)
  ∧ (ready = true → errorLog s' = errorLog s → hand ∈ ["left"; "right"] →
     handsDetected (detectionStatus s') !! hand = Some false).
Proof.
  intros Hrep s'. subst s'. unfold handsOf.
  destruct (predict_refs ready settings dets s) as [_ ->].
  unfold predict. destruct ready; simpl; [|done].
  destruct (predictBody _ _ _ _) as [[[f' st']|e] h'] eqn:E; simpl;
    apply predictBody_spec in E as (_ & _ & _ & Eh & Eok);
    (split; [by apply Eh|]); intros _ Hlog Hhand.
  - destruct (Eok _ _ eq_refl) as (_ & _ & _ & Hst).
    rewrite (Hst hand Hrep). unfold newStatus. simpl.
    set_unfold. by destruct Hhand as [->|[->|[]]].
  - exfalso. apply (f_equal length) in Hlog.
    rewrite length_app in Hlog. simpl in Hlog. lia.
Qed.

(** The rotation that the face part writes is the raw estimate. *)
Lemma faceTracking_raw settings dets f st h res lms rest
    noseTip leftEye rightEye fd :
  faceTrackingEnabled settings = true →
  faceLandmarker dets = Some (Returns res) →
  faceLandmarks res = Some (lms :: rest) →
  lms !! 1%nat = Some noseTip → lms !! 33%nat = Some leftEye →
  lms !! 263%nat = Some rightEye →
  faceObjs h !! face f = Some fd →
  rotation <$> faceObjs (faceTracking settings dets f st h).2 !! face f
  = Some (headRotation (mirrorMode settings) noseTip leftEye rightEye).
Proof.
  intros He Hd Hl H1 H33 H263 Hf. unfold faceTracking.
  rewrite Hd, He. run_M. rewrite Hl, H1, H33, H263, Hf. simpl.
  destruct (faceBlendshapes res) as [[|c ?]|]; simpl;
    rewrite ?lookup_insert_eq; simpl; rewrite ?lookup_insert_eq; done.
Qed.

(** Whatever the smoothing setting and whatever the rotation held before, a
    tick on which a face is detected leaves the raw estimate in the frame:
    the smoothing step has no effect. *)
Lemma smoothing_leaves_raw settings dets s res lms rest
    noseTip leftEye rightEye fd :
  faceTrackingEnabled settings = true →
  faceLandmarker dets = Some (Returns res) →
  faceLandmarks res = Some (lms :: rest) →
  lms !! 1%nat = Some noseTip → lms !! 33%nat = Some leftEye →
  lms !! 263%nat = Some rightEye →
  faceOf s = Some fd →
  rotation <$> faceOf (predict true settings dets s)
  = Some (headRotation (mirrorMode settings) noseTip leftEye rightEye).
Proof.
  intros He Hd Hl H1 H33 H263 Hf. unfold faceOf in *.
  destruct (predict_refs true settings dets s) as [-> _].
  rewrite <- (faceTracking_raw settings dets (trackingData s) newStatus
                (heap s) res lms rest _ _ _ fd) by done.
  unfold predict. simpl.
  destruct (predictBody _ _ _ _) as [[[f' st']|e] h'] eqn:E; simpl;
    apply predictBody_spec in E as (E & _); by rewrite E.
Qed.

(** ** A tick on which a detector throws *)

(** The blend shapes that the face part writes are those of the first entry
    the detector returns. *)
Lemma faceTracking_shapes settings dets f st h res lms rest
    noseTip leftEye rightEye c cs fd :
  faceTrackingEnabled settings = true →
  faceLandmarker dets = Some (Returns res) →
  faceLandmarks res = Some (lms :: rest) →
  lms !! 1%nat = Some noseTip → lms !! 33%nat = Some leftEye →
  lms !! 263%nat = Some rightEye →
  faceBlendshapes res = Some (c :: cs) →
  faceObjs h !! face f = Some fd →
  blendShapes <$> faceObjs (faceTracking settings dets f st h).2 !! face f
  = Some (collectBlendShapes (categories c)).
Proof.
  intros He Hd Hl H1 H33 H263 Hb Hf. unfold faceTracking.
  rewrite Hd, He. run_M. rewrite Hl, H1, H33, H263, Hf, Hb. simpl.
  rewrite ?lookup_insert_eq; simpl; rewrite ?lookup_insert_eq; done.
Qed.

(** When a detector that is called throws, no hand entry has been written. *)
Lemma predictBody_throw_hands settings dets td h r h' :
  detectorThrows settings dets = true →
  predictBody settings dets td h = (r, h') →
  handsObjs h' = handsObjs h.
Proof.
  intros Hthrow Hrun.
  pose proof (predictBody_spec _ _ _ _ _ _ Hrun) as (_ & _ & _ & _ & Hok).
  unfold predictBody in Hrun.
  cbv beta iota delta [mbind M_bind mret M_ret] in Hrun.
  destruct (faceTracking settings dets td newStatus h) as [[st1|e1] h1] eqn:E1;
    apply faceTracking_spec in E1 as (F1 & _ & _ & F4).
  2:{ by injection Hrun as <- <-. }
  destruct (poseTracking settings dets (td, st1) h1) as [[[f2 st2]|e2] h2] eqn:E2;
    apply poseTracking_spec in E2 as (-> & P2).
  2:{ by injection Hrun as <- <-. }
  destruct (F4 _ eq_refl) as (_ & Ft).
  destruct (P2 _ _ eq_refl) as (_ & _ & _ & Pt).
  assert (handTrackingEnabled settings = true
          ∧ handLandmarker dets = Some Throws) as [He Hd].
  { unfold detectorThrows in Hthrow.
    destruct (faceTrackingEnabled settings), (faceLandmarker dets) as [[|]|];
      try (by destruct Ft);
      destruct (bodyTrackingEnabled settings),
        (poseLandmarker dets) as [[|]|];
      try (by destruct Pt);
      destruct (handTrackingEnabled settings),
        (handLandmarker dets) as [[|]|]; done. }
  unfold handTracking in Hrun. rewrite He, Hd in Hrun. simpl in Hrun.
  by injection Hrun as <- <-.
Qed.

(** C4 (as amended).  When the detector of an enabled modality throws, the
    tick publishes nothing: the hook keeps the frame and the detection status
    it had, one error is logged, and the next tick is scheduled all the same.
    The hands object is as before the tick, and so is the face object when
    it is the face detector that throws.  What the face part wrote before a
    later detector threw stays in the face object of the frame that is still
    current: its rotation is the raw estimate of this tick and its blend
    shapes are those the detector returned. *)
Theorem detector_failure_skips_tick settings dets s :
  detectorThrows settings dets = true →
  let s' := predict true settings dets s in
  trackingData s' = trackingData s
  ∧ detectionStatus s' = detectionStatus s
  ∧ (∃ e, errorLog s' = errorLog s ++ [e])
  ∧ scheduled s' = S (scheduled s)
  ∧ handsOf s' = handsOf s
  ∧ (faceTrackingEnabled settings = true → faceLandmarker dets = Some Throws →
     heap s' = heap s ∧ errorLog s' = errorLog s ++ [DetectionFailure])
  ∧ (∀ res lms rest noseTip leftEye rightEye fd,
       faceTrackingEnabled settings = true →
       faceLandmarker dets = Some (Returns res) →
       faceLandmarks res = Some (lms :: rest) →
       lms !! 1%nat = Some noseTip → lms !! 33%nat = Some leftEye →
       lms !! 263%nat = Some rightEye →
       faceOf s = Some fd →
       rotation <$> faceOf s'
       = Some (headRotation (mirrorMode settings) noseTip leftEye rightEye)
       ∧ ∀ c cs, faceBlendshapes res = Some (c :: cs) →
           blendShapes <$> faceOf s'
           = Some (collectBlendShapes (categories c))).
Proof.
  intros Hthrow s'. subst s'. unfold handsOf, faceOf, predict. simpl.
  destruct (predictBody _ _ _ _) as [[[f' st']|e] h'] eqn:E; simpl.
  { apply predictBody_spec in E as (_ & _ & _ & _ & E).
    destruct (E _ _ eq_refl) as (_ & _ & Hno & _). congruence. }
  pose proof (predictBody_throw_hands _ _ _ _ _ _ Hthrow E) as Hhands.
  pose proof (predictBody_spec _ _ _ _ _ _ E) as (Hface & _).
  split; [done|]. split; [done|]. split; [eauto|]. split; [done|].
  split; [by rewrite Hhands|]. split.
  - intros He Hd. unfold predictBody, faceTracking in E.
    rewrite He, Hd in E. by injection E as <- <-.
  - intros res lms rest noseTip leftEye rightEye fd He Hd Hl H1 H33 H263 Hf.
    rewrite Hface. split.
    + by eapply faceTracking_raw.
    + intros c cs Hb. by eapply faceTracking_shapes.
Qed.

(** ** The automatic blink after a tick *)





(** The monad of a tick, unfolded in one hypothesis. *)
Ltac run_M_in H :=
  cbv beta iota delta [mbind M_bind mret M_ret throw defined detectForVideo
                       readFace writeFace writeHands] in H.

(** ** The tick, stage by stage *)

(** A run of the [try] block that returns went through its four stages. *)
Lemma predictBody_ok settings dets td h f' st' h' :
  predictBody settings dets td h = (Ok (f', st'), h') →
  ∃ st1 h1 st2,
    faceTracking settings dets td newStatus h = (Ok st1, h1)
    ∧ poseTracking settings dets (td, st1) h1 = (Ok (f', st2), h1)
    ∧ handTracking settings dets f' st2 h1 = (Ok st', h')
    ∧ applySmoothing settings td f' h' = (Ok tt, h').
Proof.
  intros Hrun. unfold predictBody in Hrun.
  cbv beta iota delta [mbind M_bind mret M_ret] in Hrun.
  destruct (faceTracking settings dets td newStatus h) as [[st1|e1] h1] eqn:E1;
    [|done].
  destruct (poseTracking settings dets (td, st1) h1) as [[[f2 st2]|e2] h2] eqn:E2;
    [|done].
  destruct (poseTracking_spec _ _ _ _ _ _ _ E2) as (-> & P2).
  destruct (P2 _ _ eq_refl) as (Pf & _).
  destruct (handTracking settings dets f2 st2 h1) as [[st3|e3] h3] eqn:E3;
    [|done].
  destruct (applySmoothing_aliased settings td f2 h3 Pf) as [S1 _].
  destruct (applySmoothing settings td f2 h3) as [[[]|e4] h4] eqn:E4; [|done].
  simpl in S1. subst h4. injection Hrun as <- <- <-.
  exists st1, h1, st2. done.
Qed.

Lemma faceTracking_status settings dets f st h st' h' :
  faceTracking settings dets f st h = (Ok st', h') →
  st' = {| faceDetected := faceSeen settings dets || faceDetected st;
           poseDetected := poseDetected st;
           handsDetected := handsDetected st |}.
Proof.
  unfold faceTracking, faceSeen.
  destruct (faceLandmarker dets) as [[res|]|];
    destruct (faceTrackingEnabled settings); run_M; simpl;
    try (intros [= <- <-]; by destruct st).
  destruct (faceLandmarks res) as [[|lms ?]|];
    try (intros [= <- <-]; by destruct st).
  destruct (lms !! 1%nat); [|done].
  destruct (lms !! 33%nat); [|done].
  destruct (lms !! 263%nat); [|done].
  destruct (faceObjs h !! face f) eqn:E; simpl; [|done].
  destruct (faceBlendshapes res) as [[|c ?]|]; simpl;
    rewrite ?lookup_insert_eq; by intros [= <- <-].
Qed.

Lemma poseTracking_result settings dets f st h f' st' h' :
  poseTracking settings dets (f, st) h = (Ok (f', st'), h') →
  st' = {| faceDetected := faceDetected st;
           poseDetected := poseSeen settings dets || poseDetected st;
           handsDetected := handsDetected st |}
  ∧ (poseSeen settings dets = false → f' = f)
  ∧ (poseSeen settings dets = true →
     ∃ res p rest p11 p12 p13 p14 p15 p16,
       poseLandmarker dets = Some (Returns res)
       ∧ poseLandmarks res = Some (p :: rest)
       ∧ p !! 11%nat = Some p11 ∧ p !! 12%nat = Some p12
       ∧ p !! 13%nat = Some p13 ∧ p !! 14%nat = Some p14
       ∧ p !! 15%nat = Some p15 ∧ p !! 16%nat = Some p16
       ∧ f' = {| face := face f; pose := poseFrom p11 p12 p13 p14 p15 p16;
                 hands := hands f |}).
Proof.
  unfold poseTracking, poseSeen.
  destruct (poseLandmarker dets) as [[res|]|];
    destruct (bodyTrackingEnabled settings); run_M; simpl;
    try (intros [= <- <-]; by destruct st).
  destruct (poseLandmarks res) as [[|p rest]|] eqn:El;
    try (intros [= <- <-]; by destruct st).
  destruct (p !! 11%nat) as [p11|] eqn:E11; simpl; [|done].
  destruct (p !! 12%nat) as [p12|] eqn:E12; simpl; [|done].
  destruct (p !! 13%nat) as [p13|] eqn:E13; simpl; [|done].
  destruct (p !! 14%nat) as [p14|] eqn:E14; simpl; [|done].
  destruct (p !! 15%nat) as [p15|] eqn:E15; simpl; [|done].
  destruct (p !! 16%nat) as [p16|] eqn:E16; simpl; [|done].
  intros [= <- <- <-]. split; [done|]. split; [done|]. intros _.
  exists res, p, rest, p11, p12, p13, p14, p15, p16. repeat split; done.
Qed.

Lemma lastLabelled_None hand index hs :
  lastLabelled hand index hs = None ↔ hand ∉ handLabels hs.
Proof.
  revert index. induction hs as [|hd rest IH]; intros index; simpl.
  - split; [intros _; apply not_elem_of_nil|done].
  - unfold handLabels. simpl. fold (handLabels rest).
    destruct (lastLabelled hand (S index) rest) eqn:E.
    + split; [done|]. intros Hn. exfalso.
      assert (hand ∉ handLabels rest) as Hr.
      { destruct (hd !! 0%nat); simpl in Hn; [|done].
        by apply not_elem_of_cons in Hn as [_ ?]. }
      apply (IH (S index)) in Hr. congruence.
    + apply IH in E. destruct (hd !! 0%nat) as [c|]; simpl.
      * case_bool_decide as Hc.
        -- split; [done|]. intros Hn. apply not_elem_of_cons in Hn as [Hn _].
           by injection Hc as <-.
        -- split; [|done]. intros _. apply not_elem_of_cons. split; [|done].
           intros ->. by apply Hc.
      * rewrite ?bool_decide_eq_false_2 by done. naive_solver.
Qed.

(** A run of the [forEach] that returns has marked every labelled hand in the
    status and stored, for each, the landmarks at the index of the last entry
    with that label. *)
Lemma eachHand_ok lms l hs : ∀ index st h st' h',
  eachHand lms l index hs st h = (Ok st', h') →
  faceDetected st' = faceDetected st ∧ poseDetected st' = poseDetected st
  ∧ (∀ hand, handsDetected st' !! hand
             = if bool_decide (hand ∈ handLabels hs) then Some true
               else handsDetected st !! hand)
  ∧ (∀ hand i, lastLabelled hand index hs = Some i →
       handsObjs h' !! l ≫= (.!! hand)
       = Some {| landmarks := lms !! i; detected := true |}).
Proof.
  induction hs as [|hd rest IH]; intros index st h st' h' Hrun; simpl in *.
  - run_M_in Hrun. injection Hrun as <- <-. repeat split; try done.
  - unfold handLabels. simpl. fold (handLabels rest). run_M_in Hrun.
    destruct (hd !! 0%nat) as [c|]; simpl in *; [|done].
    destruct (handsObjs h !! l) as [o|] eqn:E; simpl in *; [|done].
    pose proof (eachHand_spec _ _ _ _ _ _ _ _ Hrun) as (_ & Hkeep & _).
    apply IH in Hrun as (Hf & Hp & Hs & Hl). simpl in *.
    split; [done|]. split; [done|]. split.
    + intros hand. rewrite Hs.
      destruct (decide (hand = toLowerCase (categoryName c))) as [->|Hne].
      * rewrite (bool_decide_eq_true_2 (_ ∈ _ :: _)) by apply list_elem_of_here.
        case_bool_decide; [done|]. by rewrite lookup_insert_eq.
      * rewrite lookup_insert_ne by done.
        repeat case_bool_decide; try done; set_solver.
    + intros hand i. destruct (lastLabelled hand (S index) rest) eqn:El.
      * intros [= <-]. by apply Hl.
      * case_bool_decide as Hc; [|done]. intros [= <-].
        apply lastLabelled_None in El. rewrite (Hkeep l hand El). simpl.
        rewrite lookup_insert_eq. simpl. injection Hc as <-.
        by rewrite lookup_insert_eq.
Qed.

Lemma handTracking_result settings dets f st h st' h' :
  handTracking settings dets f st h = (Ok st', h') →
  faceDetected st' = faceDetected st ∧ poseDetected st' = poseDetected st
  ∧ (∀ hand, handsDetected st' !! hand
             = if handSeen settings dets hand then Some true
               else handsDetected st !! hand)
  ∧ (∀ hand res lms i,
       handTrackingEnabled settings = true →
       handLandmarker dets = Some (Returns res) →
       handLandmarks res = Some lms → lms ≠ [] →
       lastLabelled hand 0 (handedness res) = Some i →
       handsObjs h' !! hands f ≫= (.!! hand)
       = Some {| landmarks := lms !! i; detected := true |}).
Proof.
  intros Hrun. unfold handTracking in Hrun. unfold handSeen.
  destruct (handLandmarker dets) as [[res|]|];
    destruct (handTrackingEnabled settings); run_M_in Hrun; simpl in *;
    try done;
    try (injection Hrun as <- <-; repeat split; try done; intros;
         by simplify_eq).
  destruct (handLandmarks res) as [[|lm ?]|] eqn:El.
  1,3: injection Hrun as <- <-; repeat split; try done;
       intros ? ? ? ? _ [= <-] Hl Hne; rewrite El in Hl; by simplify_eq.
  apply eachHand_ok in Hrun as (Hf & Hp & Hs & Hl).
  split; [done|]. split; [done|]. split; [done|].
  intros hand ? lms i _ [= <-] Hlms _ Hi. rewrite El in Hlms.
  injection Hlms as <-. by apply Hl.
Qed.

(** ** What a tick publishes *)

(** A tick that logs no error has published the value of its [try] block. *)
Lemma predict_published settings dets s :
  errorLog (predict true settings dets s) = errorLog s →
  ∃ f' st' h',
    predictBody settings dets (trackingData s) (heap s) = (Ok (f', st'), h')
    ∧ trackingData (predict true settings dets s) = f'
    ∧ detectionStatus (predict true settings dets s) = st'
    ∧ heap (predict true settings dets s) = h'.
Proof.
  unfold predict. simpl.
  destruct (predictBody _ _ _ _) as [[[f' st']|e] h']; simpl.
  - intros _. by exists f', st', h'.
  - intros Hlog. apply (f_equal length) in Hlog.
    rewrite length_app in Hlog. simpl in Hlog. lia.
Qed.

(** X1.  The detection status a tick publishes is computed from that tick's
    detector results alone: [faceDetected] and [poseDetected] tell whether a
    face and a pose were returned, and a hand's flag is true exactly when one
    of the handedness labels names it. *)
Theorem detection_status_is_fresh settings dets s :
  let s' := predict true settings dets s in
  errorLog s' = errorLog s →
  faceDetected (detectionStatus s') = faceSeen settings dets
  ∧ poseDetected (detectionStatus s') = poseSeen settings dets
  ∧ ∀ hand, handsDetected (detectionStatus s') !! hand
            = if handSeen settings dets hand then Some true
              else handsDetected newStatus !! hand.
Proof.
  intros s' (f' & st' & h' & Hrun & _ & Hst & _)%predict_published.
  subst s'. rewrite Hst.
  apply predictBody_ok in Hrun as (st1 & h1 & st2 & E1 & E2 & E3 & _).
  apply faceTracking_status in E1. apply poseTracking_result in E2 as (E2 & _).
  apply handTracking_result in E3 as (Hf & Hp & Hs & _).
  rewrite Hf, Hp. split; [|split].
  - rewrite E2, E1. simpl. by rewrite orb_false_r.
  - rewrite E2, E1. simpl. by rewrite orb_false_r.
  - intros hand. rewrite Hs, E2, E1. done.
Qed.

(** X2.  The pose positions pass through unfiltered: a tick that publishes
    with a detected pose stores the x and y of body landmarks 11 to 16, and a
    tick without a detected pose keeps the positions it had. *)
Theorem pose_passes_through settings dets s :
  let s' := predict true settings dets s in
  (poseSeen settings dets = false → pose (trackingData s') = pose (trackingData s))
  ∧ (errorLog s' = errorLog s → poseSeen settings dets = true →
     ∃ res p rest p11 p12 p13 p14 p15 p16,
       poseLandmarker dets = Some (Returns res)
       ∧ poseLandmarks res = Some (p :: rest)
       ∧ p !! 11%nat = Some p11 ∧ p !! 12%nat = Some p12
       ∧ p !! 13%nat = Some p13 ∧ p !! 14%nat = Some p14
       ∧ p !! 15%nat = Some p15 ∧ p !! 16%nat = Some p16
       ∧ pose (trackingData s') = poseFrom p11 p12 p13 p14 p15 p16).
Proof.
  intros s'. subst s'. split.
  - intros Hno. unfold predict. simpl.
    destruct (predictBody _ _ _ _) as [[[f' st']|e] h'] eqn:Hrun; [|done].
    apply predictBody_ok in Hrun as (st1 & h1 & st2 & _ & E2 & _).
    apply poseTracking_result in E2 as (_ & E2 & _). simpl.
    by rewrite (E2 Hno).
  - intros (f' & st' & h' & Hrun & Hf & _)%predict_published Hseen.
    rewrite Hf.
    apply predictBody_ok in Hrun as (st1 & h1 & st2 & _ & E2 & _).
    apply poseTracking_result in E2 as (_ & _ & E2).
    destruct (E2 Hseen)
      as (res & p & rest & p11 & p12 & p13 & p14 & p15 & p16 & ? & ? & ?
          & ? & ? & ? & ? & ? & ->).
    exists res, p, rest, p11, p12, p13, p14, p15, p16. repeat split; done.
Qed.

(** X3.  A tick that publishes stores every hand the detector labels: the
    hand's entry is marked detected and holds the landmarks found at the
    index of the last handedness entry with that label. *)
Theorem reported_hand_is_stored settings dets s hand res lms i :
  let s' := predict true settings dets s in
  errorLog s' = errorLog s →
  handTrackingEnabled settings = true →
  handLandmarker dets = Some (Returns res) →
  handLandmarks res = Some lms → lms ≠ [] →
  lastLabelled hand 0 (handedness res) = Some i →
  handsOf s' ≫= (.!! hand) = Some {| landmarks := lms !! i; detected := true |}.
Proof.
  intros s' (f' & st' & h' & Hrun & Hf & _ & Hh)%predict_published
    He Hd Hl Hne Hi.
  subst s'. unfold handsOf. rewrite Hf, Hh.
  apply predictBody_ok in Hrun as (st1 & h1 & st2 & _ & _ & E3 & _).
  apply handTracking_result in E3 as (_ & _ & _ & E3). by eapply E3.
Qed.

(** X4.  A face with fewer than 264 landmarks makes the tick throw before it
    writes anything: a [TypeError] is logged and the frame, the detection
    status and the shared objects are as they were. *)
Theorem short_face_skips_tick settings dets s res lms rest :
  let s' := predict true settings dets s in
  faceTrackingEnabled settings = true →
  faceLandmarker dets = Some (Returns res) →
  faceLandmarks res = Some (lms :: rest) →
  (length lms < 264)%nat →
  errorLog s' = errorLog s ++ [TypeError]
  ∧ trackingData s' = trackingData s
  ∧ detectionStatus s' = detectionStatus s
  ∧ heap s' = heap s.
Proof.
  intros s' He Hd Hl Hlen. subst s'.
  assert (lms !! 263%nat = None) as H263 by (apply lookup_ge_None; lia).
  assert (faceTracking settings dets (trackingData s) newStatus (heap s)
          = (Throw TypeError, heap s)) as E1.
  { unfold faceTracking. rewrite Hd, He. run_M. rewrite Hl, H263.
    by destruct (lms !! 1%nat), (lms !! 33%nat). }
  unfold predict, predictBody. simpl.
  cbv beta iota delta [mbind M_bind]. by rewrite E1.
Qed.

(** ** When a tick publishes *)

Lemma faceTrackingSomeKeeps settings dets f st h r h' :
  faceTracking settings dets f st h = (r, h') →
  ∀ l, is_Some (faceObjs h' !! l) ↔ is_Some (faceObjs h !! l).
Proof.
  intros Hrun l. unfold faceTracking in Hrun.
  destruct (faceLandmarker dets) as [[res|]|];
    destruct (faceTrackingEnabled settings); run_M_in Hrun; simpl in *;
    try (by injection Hrun as <- <-).
  destruct (faceLandmarks res) as [[|lms ?]|];
    try (by injection Hrun as <- <-).
  destruct (lms !! 1%nat); simpl in *; [|by injection Hrun as <- <-].
  destruct (lms !! 33%nat); simpl in *; [|by injection Hrun as <- <-].
  destruct (lms !! 263%nat); simpl in *; [|by injection Hrun as <- <-].
  destruct (faceObjs h !! face f) as [fd|] eqn:E; simpl in *;
    [|by injection Hrun as <- <-].
  destruct (faceBlendshapes res) as [[|c ?]|]; simpl in *;
    rewrite ?lookup_insert_eq in Hrun; injection Hrun as <- <-; simpl;
    (destruct (decide (l = face f)) as [->|];
     [rewrite ?lookup_insert_eq, E; split; by eexists
     |by rewrite ?lookup_insert_ne]).
Qed.

Lemma faceTracking_progress settings dets f st h :
  is_Some (faceObjs h !! face f) →
  match faceLandmarker dets with
  | Some (Returns r) => faceComplete r = true
  | Some Throws => False
  | None => True
  end →
  ∃ st' h', faceTracking settings dets f st h = (Ok st', h').
Proof.
  intros [fd Hf] Hc. unfold faceTracking.
  destruct (faceLandmarker dets) as [[res|]|]; [|done|by eexists _, _].
  destruct (faceTrackingEnabled settings); [|by eexists _, _]. run_M.
  unfold faceComplete in Hc.
  destruct (faceLandmarks res) as [[|lms ?]|]; try by eexists _, _.
  apply bool_decide_eq_true in Hc.
  destruct (lookup_lt_is_Some_2 lms 1) as [? ->]; [lia|].
  destruct (lookup_lt_is_Some_2 lms 33) as [? ->]; [lia|].
  destruct (lookup_lt_is_Some_2 lms 263) as [? ->]; [lia|].
  rewrite Hf. simpl.
  destruct (faceBlendshapes res) as [[|c ?]|]; simpl;
    rewrite ?lookup_insert_eq; by eexists _, _.
Qed.

Lemma poseTracking_progress settings dets t h :
  match poseLandmarker dets with
  | Some (Returns r) => poseComplete r = true
  | Some Throws => False
  | None => True
  end →
  ∃ t' h', poseTracking settings dets t h = (Ok t', h').
Proof.
  intros Hc. destruct t as [f st]. unfold poseTracking.
  destruct (poseLandmarker dets) as [[res|]|]; [|done|by eexists _, _].
  destruct (bodyTrackingEnabled settings); [|by eexists _, _]. run_M.
  unfold poseComplete in Hc.
  destruct (poseLandmarks res) as [[|p ?]|]; try by eexists _, _.
  apply bool_decide_eq_true in Hc.
  destruct (lookup_lt_is_Some_2 p 11) as [? ->]; [lia|].
  destruct (lookup_lt_is_Some_2 p 12) as [? ->]; [lia|].
  destruct (lookup_lt_is_Some_2 p 13) as [? ->]; [lia|].
  destruct (lookup_lt_is_Some_2 p 14) as [? ->]; [lia|].
  destruct (lookup_lt_is_Some_2 p 15) as [? ->]; [lia|].
  destruct (lookup_lt_is_Some_2 p 16) as [? ->]; [lia|].
  by eexists _, _.
Qed.

Lemma eachHand_progress lms l hs : ∀ index st h,
  is_Some (handsObjs h !! l) →
  forallb (λ handedness, bool_decide (handedness ≠ [])) hs = true →
  ∃ st' h', eachHand lms l index hs st h = (Ok st', h').
Proof.
  induction hs as [|hd rest IH]; intros index st h [o Ho] Hc; simpl.
  - by eexists _, _.
  - simpl in Hc. apply andb_true_iff in Hc as [Hhd Hrest].
    apply bool_decide_eq_true in Hhd. run_M.
    destruct hd as [|c ?]; [done|]. simpl. rewrite Ho. simpl.
    apply IH; [|done]. simpl. rewrite lookup_insert_eq. by eexists.
Qed.

Lemma handTracking_progress settings dets f st h :
  is_Some (handsObjs h !! hands f) →
  match handLandmarker dets with
  | Some (Returns r) => handsComplete r = true
  | Some Throws => False
  | None => True
  end →
  ∃ st' h', handTracking settings dets f st h = (Ok st', h').
Proof.
  intros Hh Hc. unfold handTracking.
  destruct (handLandmarker dets) as [[res|]|]; [|done|by eexists _, _].
  destruct (handTrackingEnabled settings); [|by eexists _, _]. run_M.
  destruct (handLandmarks res) as [[|lm ?]|]; try by eexists _, _.
  by apply eachHand_progress.
Qed.

(** A tick on complete results logs nothing. *)
Lemma complete_tick_logs_nothing settings dets s :
  resultsComplete dets = true →
  is_Some (faceOf s) → is_Some (handsOf s) →
  errorLog (predict true settings dets s) = errorLog s.
Proof.
  intros Hc Hf Hh. unfold resultsComplete in Hc.
  apply andb_true_iff in Hc as [Hc Hhand].
  apply andb_true_iff in Hc as [Hface Hpose].
  unfold faceOf, handsOf in *.
  destruct (faceTracking_progress settings dets (trackingData s) newStatus
              (heap s) Hf) as (st1 & h1 & E1).
  { by destruct (faceLandmarker dets) as [[|]|]. }
  destruct (poseTracking_progress settings dets (trackingData s, st1) h1)
    as ([f2 st2] & h2 & E2).
  { by destruct (poseLandmarker dets) as [[|]|]. }
  pose proof (faceTracking_spec _ _ _ _ _ _ _ E1) as (F1 & _).
  pose proof (poseTracking_spec _ _ _ _ _ _ _ E2) as (-> & P2).
  destruct (P2 _ _ eq_refl) as (Pf & Ph & _).
  destruct (handTracking_progress settings dets f2 st2 h1) as (st3 & h3 & E3).
  { by rewrite Ph, F1. }
  { by destruct (handLandmarker dets) as [[|]|]. }
  pose proof (handTracking_spec _ _ _ _ _ _ _ E3) as (H1 & _).
  destruct (applySmoothing_aliased settings (trackingData s) f2 h3 Pf)
    as [S1 S2].
  assert (is_Some (faceObjs h3 !! face (trackingData s))) as Hf3.
  { rewrite H1. unfold faceTracking in E1. clear -E1 Hf.
    destruct (faceTrackingSomeKeeps settings dets (trackingData s) newStatus
                (heap s) _ _ E1 (face (trackingData s))) as [_ K].
    by apply K. }
  specialize (S2 Hf3).
  assert (predictBody settings dets (trackingData s) (heap s)
          = (Ok (f2, st3), h3)) as Hrun.
  { unfold predictBody. cbv beta iota zeta delta [mbind M_bind mret M_ret].
    rewrite E1. cbv beta iota. rewrite E2. cbv beta iota.
    rewrite E3. cbv beta iota.
    destruct (applySmoothing settings (trackingData s) f2 h3) as [r4 h4].
    simpl in S1, S2. by rewrite S1, S2. }
  unfold predict. cbv [negb]. by rewrite Hrun.
Qed.

Lemma eachHand_keeps lms l hs : ∀ index st h r h',
  eachHand lms l index hs st h = (r, h') →
  ∀ l', is_Some (handsObjs h' !! l') ↔ is_Some (handsObjs h !! l').
Proof.
  induction hs as [|hd rest IH]; intros index st h r h' Hrun l';
    simpl in Hrun; run_M_in Hrun.
  - by injection Hrun as <- <-.
  - destruct (hd !! 0%nat) as [c|]; simpl in Hrun;
      [|by injection Hrun as <- <-].
    destruct (handsObjs h !! l) as [o|] eqn:E; simpl in Hrun;
      [|by injection Hrun as <- <-].
    rewrite (IH _ _ _ _ _ Hrun l'). simpl.
    destruct (decide (l' = l)) as [->|].
    + rewrite lookup_insert_eq, E. split; by eexists.
    + by rewrite lookup_insert_ne.
Qed.

Lemma handTracking_keeps settings dets f st h r h' :
  handTracking settings dets f st h = (r, h') →
  ∀ l, is_Some (handsObjs h' !! l) ↔ is_Some (handsObjs h !! l).
Proof.
  intros Hrun. unfold handTracking in Hrun.
  destruct (handLandmarker dets) as [[res|]|];
    destruct (handTrackingEnabled settings); run_M_in Hrun; simpl in *;
    try (by injection Hrun as <- <-).
  destruct (handLandmarks res) as [[|lm ?]|];
    try (by injection Hrun as <- <-).
  by eapply eachHand_keeps.
Qed.

(** A tick that publishes leaves the frame with its face and hands objects. *)
Lemma published_keeps_objects settings dets s :
  errorLog (predict true settings dets s) = errorLog s →
  is_Some (faceOf s) → is_Some (handsOf s) →
  is_Some (faceOf (predict true settings dets s))
  ∧ is_Some (handsOf (predict true settings dets s)).
Proof.
  intros (f' & st' & h' & Hrun & Hf & _ & Hh)%predict_published Hface Hhands.
  unfold faceOf, handsOf in *. rewrite Hf, Hh.
  pose proof (predictBody_spec _ _ _ _ _ _ Hrun) as (Hobjs & _ & _ & _ & Hok).
  destruct (Hok _ _ eq_refl) as (-> & -> & _).
  apply predictBody_ok in Hrun as (st1 & h1 & st2 & E1 & _ & E3 & _).
  split.
  - rewrite Hobjs. rewrite E1. simpl.
    by apply (faceTrackingSomeKeeps _ _ _ _ _ _ _ E1).
  - apply (handTracking_keeps _ _ _ _ _ _ _ E3).
    apply faceTracking_spec in E1 as (-> & _). done.
Qed.

(** X5.  When no detector throws and the results carry every landmark the
    tick reads, the tick publishes: nothing is logged, and the frame still
    has its face and hands objects, for any frame that had them. *)
Theorem complete_results_publish settings dets s :
  resultsComplete dets = true →
  is_Some (faceOf s) → is_Some (handsOf s) →
  let s' := predict true settings dets s in
  errorLog s' = errorLog s ∧ is_Some (faceOf s') ∧ is_Some (handsOf s').
Proof.
  intros Hc Hf Hh s'. subst s'.
  pose proof (complete_tick_logs_nothing settings dets s Hc Hf Hh) as Hlog.
  split; [done|]. by apply published_keeps_objects.
Qed.

(** X6.  From the initial state, a run of ticks whose detector results are
    all complete never fails: no error is logged, and every tick has asked
    for the next animation frame. *)
Theorem complete_runs_never_fail inputs :
  Forall (λ input, resultsComplete input.2 = true) inputs →
  errorLog (ticksFrom initialState inputs) = []
  ∧ scheduled (ticksFrom initialState inputs) = length inputs.
Proof.
  intros Hall.
  assert (∀ s, is_Some (faceOf s) → is_Some (handsOf s) →
               errorLog (ticksFrom s inputs) = errorLog s
               ∧ scheduled (ticksFrom s inputs)
                 = (scheduled s + length inputs)%nat) as H.
  { induction Hall as [|[settings dets] inputs Hc _ IH]; intros s Hf Hh; simpl.
    - split; [done|lia].
    - simpl in Hc.
      pose proof (complete_tick_logs_nothing settings dets s Hc Hf Hh) as Hlog.
      destruct (published_keeps_objects settings dets s Hlog Hf Hh)
        as [Hf' Hh'].
      destruct (IH _ Hf' Hh') as [-> ->].
      rewrite predict_reschedules. split; [done|lia]. }
  destruct (H initialState) as [-> ->]; [by eexists|by eexists|done].
Qed.

(** ** Head rotation *)

(** X7.  Mirroring negates the head rotation a tick leaves in the frame, on
    all three axes, whatever the smoothing setting and the state before. *)
Theorem mirror_negates_rotation settings dets s res lms rest
    noseTip leftEye rightEye fd :
  faceTrackingEnabled settings = true →
  faceLandmarker dets = Some (Returns res) →
  faceLandmarks res = Some (lms :: rest) →
  lms !! 1%nat = Some noseTip → lms !! 33%nat = Some leftEye →
  lms !! 263%nat = Some rightEye →
  faceOf s = Some fd →
  ∃ plain mirrored,
    rotation <$> faceOf (predict true (withMirror false settings) dets s)
    = Some plain
    ∧ rotation <$> faceOf (predict true (withMirror true settings) dets s)
      = Some mirrored
    ∧ rot_x mirrored = - rot_x plain
    ∧ rot_y mirrored = - rot_y plain
    ∧ rot_z mirrored = - rot_z plain.
Proof.
  intros He Hd Hl H1 H33 H263 Hf.
  exists (headRotation false noseTip leftEye rightEye),
         (headRotation true noseTip leftEye rightEye).
  split; [|split; [|done]].
  - by rewrite (smoothing_leaves_raw (withMirror false settings) dets s res lms
                  rest noseTip leftEye rightEye fd).
  - by rewrite (smoothing_leaves_raw (withMirror true settings) dets s res lms
                  rest noseTip leftEye rightEye fd).
Qed.

(** X8.  For landmarks in normalized image coordinates, the estimated yaw
    stays within 30 degrees and the estimated pitch within 60 degrees of
    zero, mirrored or not; the yaw is zero exactly when the nose tip is at
    x = 0.5. *)
Theorem head_rotation_range mirror noseTip leftEye rightEye :
  0 ≤ lm_x noseTip ∧ lm_x noseTip ≤ 1 →
  0 ≤ lm_y noseTip ∧ lm_y noseTip ≤ 1 →
  0 ≤ lm_y leftEye ∧ lm_y leftEye ≤ 1 →
  0 ≤ lm_y rightEye ∧ lm_y rightEye ≤ 1 →
  let r := headRotation mirror noseTip leftEye rightEye in
  (- num 30 ≤ rot_y r ∧ rot_y r ≤ num 30)
  ∧ (- num 60 ≤ rot_x r ∧ rot_x r ≤ num 60)
  ∧ (rot_y r = 0 ↔ lm_x noseTip = num 0.5).
Proof.
  intros [X0 X1] [Y0 Y1] [L0 L1] [R0 R1] r. subst r.
  unfold headRotation. simpl. split; [|split].
  - destruct mirror; split; to_Q; lra.
  - destruct mirror; split; to_Q; lra.
  - split.
    + intros H.
      assert ((if mirror then - ((lm_x noseTip - num 0.5) * num 60)
               else (lm_x noseTip - num 0.5) * num 60) ≤ 0
              ∧ 0 ≤ (if mirror then - ((lm_x noseTip - num 0.5) * num 60)
                     else (lm_x noseTip - num 0.5) * num 60)) as [Hle Hge]
        by (rewrite H; split; apply Qcle_refl).
      clear H. apply Qcle_antisym; destruct mirror; to_Q; lra.
    + intros ->. destruct mirror; apply Qc_eq_Q; reflexivity.
Qed.

(** ** Blend shapes *)


(** ** Other writes of the effect *)

Lemma applyHead_writes vrm rot settings bone a r :
  BoneRotation bone a r ∈ applyHead vrm rot settings ↔
  bone = "head"
  ∧ (∃ bones, humanoid vrm = Some bones ∧ "head" ∈ bones)
  ∧ r = degToRad (rotationAbout a rot * trackingSpeed settings).
Proof.
  unfold applyHead, hasBone.
  destruct (humanoid vrm) as [bones|]; [|rewrite elem_of_nil; naive_solver].
  case_bool_decide as Hb; [|rewrite elem_of_nil; naive_solver].
  rewrite !elem_of_cons, elem_of_nil. split.
  - intros [H|[H|[H|[]]]]; injection H as -> -> ->; eauto.
  - intros (-> & _ & ->). destruct a; simpl; auto.
Qed.

Lemma expressions_no_bone vrm td settings micLevel bone a r :
  BoneRotation bone a r ∈ applyFace vrm td settings micLevel →
  BoneRotation bone a r ∈ applyHead vrm (rotation (td_face td)) settings.
Proof.
  unfold applyFace. destruct (faceTrackingEnabled settings);
    [|by intros ?%elem_of_nil].
  rewrite elem_of_app. intros [H|H]; [done|]. exfalso.
  destruct (expressionManager vrm); [|by apply elem_of_nil in H].
  unfold applyBlink, applyLipSync, applyBrows, applyEyeLook in H.
  destruct (blinkEnabled settings), (lipSyncEnabled settings), (lookAt vrm);
    simpl in H; rewrite ?elem_of_cons, ?elem_of_nil in H; naive_solver.
Qed.

(** X11.  The head bone is written exactly when face tracking is enabled and
    the rig has a head bone, on each axis with the frame's rotation times
    [trackingSpeed], converted to radians. *)
Theorem head_bone_written vrm td mt settings micLevel nowBlink nowIdle a r :
  BoneRotation "head" a r
    ∈ useVRMAnimation (Some vrm) td mt settings micLevel nowBlink nowIdle ↔
  faceTrackingEnabled settings = true
  ∧ (∃ bones, humanoid vrm = Some bones ∧ "head" ∈ bones)
  ∧ r = degToRad (rotationAbout a (rotation (td_face td))
                  * trackingSpeed settings).
Proof.
  unfold useVRMAnimation, applyModelTransform. rewrite !elem_of_app. split.
  - intros [H|[H|[H|H]]].
    + set_solver.
    + pose proof (expressions_no_bone _ _ _ _ _ _ _ H) as Hh.
      apply applyHead_writes in Hh as (_ & ? & ?).
      split; [|done]. unfold applyFace in H.
      destruct (faceTrackingEnabled settings); [done|by apply elem_of_nil in H].
    + unfold applyPose in H.
      destruct (bodyTrackingEnabled settings), (humanoid vrm);
        rewrite ?elem_of_app, ?shoulder_write, ?elbow_write, ?elem_of_nil in H;
        naive_solver.
    + destruct (applyHands vrm td settings) as [ws completed] eqn:E.
      apply elem_of_app in H as [H|H].
      * pose proof (applyHands_writes vrm td settings (BoneRotation "head" a r))
          as P.
        rewrite E in P. destruct (P H) as [r' [?|?]]; done.
      * destruct completed; [|by apply elem_of_nil in H].
        apply elem_of_app in H as [H|H].
        -- destruct (autoBlink_cases vrm td settings nowBlink) as [B|B];
             rewrite B in H; set_solver.
        -- apply idleAnimation_writes in H as [r' ?]. done.
  - intros (He & Hb & ->). right. left. unfold applyFace. rewrite He.
    apply elem_of_app. left. apply applyHead_writes. done.
Qed.

(** X12.  The look target stays within [[-2, 2]] on both axes for scores in
    [[0,1]]. *)
Theorem look_target_range vrm td mt settings micLevel nowBlink nowIdle a v :
  (∀ k w, blendShapes (td_face td) !! k = Some w → 0 ≤ w ∧ w ≤ 1) →
  LookAtTarget a v
    ∈ useVRMAnimation vrm td mt settings micLevel nowBlink nowIdle →
  - num 2 ≤ v ∧ v ≤ num 2.
Proof.
  intros Hbs H. destruct vrm as [vrm|]; [|by apply elem_of_nil in H].
  assert (LookAtTarget a v ∈ applyEyeLook vrm (blendShapes (td_face td))) as Hl.
  { unfold useVRMAnimation, applyModelTransform in H.
    rewrite !elem_of_app in H. destruct H as [H|[H|[H|H]]].
    - set_solver.
    - unfold applyFace in H.
      destruct (faceTrackingEnabled settings); [|by apply elem_of_nil in H].
      apply elem_of_app in H as [H|H].
      { unfold applyHead, hasBone in H.
        destruct (humanoid vrm); [|by apply elem_of_nil in H].
        case_bool_decide; set_solver. }
      destruct (expressionManager vrm); [|by apply elem_of_nil in H].
      rewrite !elem_of_app in H. destruct H as [H|[H|[H|H]]]; [| | |done].
      + unfold applyBlink in H. destruct (blinkEnabled settings); set_solver.
      + unfold applyLipSync in H. destruct (lipSyncEnabled settings); set_solver.
      + unfold applyBrows in H. set_solver.
    - unfold applyPose in H.
      destruct (bodyTrackingEnabled settings), (humanoid vrm);
        rewrite ?elem_of_app in H; try by apply elem_of_nil in H.
      destruct H as [H|[H|[H|H]]];
        (apply applyShoulder_writes in H || apply applyElbow_writes in H);
        by destruct H.
    - destruct (applyHands vrm td settings) as [ws completed] eqn:E.
      apply elem_of_app in H as [H|H].
      + pose proof (applyHands_writes vrm td settings (LookAtTarget a v)) as P.
        rewrite E in P. destruct (P H) as [r' [?|?]]; done.
      + destruct completed; [|by apply elem_of_nil in H].
        apply elem_of_app in H as [H|H].
        * destruct (autoBlink_cases vrm td settings nowBlink) as [B|B];
            rewrite B in H; set_solver.
        * apply idleAnimation_writes in H as [r' ?]. done. }
  unfold applyEyeLook in Hl.
  pose proof (js_or_unit _ "eyeLookInLeft" Hbs) as [A0 A1].
  pose proof (js_or_unit _ "eyeLookInRight" Hbs) as [B0 B1].
  pose proof (js_or_unit _ "eyeLookUpLeft" Hbs) as [C0 C1].
  pose proof (js_or_unit _ "eyeLookDownLeft" Hbs) as [D0 D1].
  destruct (lookAt vrm); [|by apply elem_of_nil in Hl].
  rewrite !elem_of_cons, elem_of_nil in Hl.
  destruct Hl as [Hl|[Hl|[]]]; injection Hl as -> ->; split; to_Q; lra.
Qed.





(** X15.  With a sine between -1 and 1, the chest is only written about the
    x axis, only when the idle animation is enabled, and by at most 0.02
    either way. *)
Theorem breathing_amplitude vrm td mt settings micLevel nowBlink nowIdle a r :
  (∀ x, - 1 ≤ Math_sin x ∧ Math_sin x ≤ 1) →
  BoneRotation "chest" a r
    ∈ useVRMAnimation (Some vrm) td mt settings micLevel nowBlink nowIdle →
  a = AxisX ∧ idleAnimationEnabled settings = true
  ∧ - num 0.02 ≤ r ∧ r ≤ num 0.02.
Proof.
  intros Hsin H.
  assert (BoneRotation "chest" a r ∈ idleAnimation vrm settings nowIdle) as Hi.
  { unfold useVRMAnimation, applyModelTransform in H.
    rewrite !elem_of_app in H. destruct H as [H|[H|[H|H]]].
    - set_solver.
    - apply applyFace_bone in H. done.
    - unfold applyPose in H.
      destruct (bodyTrackingEnabled settings), (humanoid vrm);
        rewrite ?elem_of_app, ?shoulder_write, ?elbow_write, ?elem_of_nil in H;
        naive_solver.
    - destruct (applyHands vrm td settings) as [ws completed] eqn:E.
      apply elem_of_app in H as [H|H].
      + pose proof (applyHands_writes vrm td settings (BoneRotation "chest" a r))
          as P.
        rewrite E in P. destruct (P H) as [r' [?|?]]; done.
      + destruct completed; [|by apply elem_of_nil in H].
        apply elem_of_app in H as [H|H]; [|done].
        destruct (autoBlink_cases vrm td settings nowBlink) as [B|B];
          rewrite B in H; set_solver. }
  unfold idleAnimation in Hi.
  destruct (idleAnimationEnabled settings); [|by apply elem_of_nil in Hi].
  destruct (humanoid vrm); [|by apply elem_of_nil in Hi].
  destruct (hasBone _ _); [|by apply elem_of_nil in Hi].
  apply list_elem_of_singleton in Hi. injection Hi as -> ->.
  destruct (Hsin (nowIdle / num 1000 * num 2)) as [S0 S1].
  repeat split; try done; revert S0 S1;
    generalize (Math_sin (nowIdle / num 1000 * num 2)); intros v S0 S1;
    to_Q; lra.
Qed.

(** ** The last write to an expression *)




(** ** The application component *)

Lemma slice_end_length {A} n (l : list A) :
  length (slice_end n l) = (length l `min` n)%nat.
Proof. unfold slice_end. rewrite length_drop. lia. Qed.

Lemma appendLog_slice entry prev :
  appendLog entry prev = slice_end 50 (prev ++ [entry]).
Proof.
  unfold appendLog, slice_end. rewrite length_app. simpl.
  replace (length prev + 1 - 50)%nat with (length prev - 49)%nat by lia.
  rewrite drop_app_le by lia. done.
Qed.

Lemma slice_end_slice_end {A} n (l1 l2 : list A) :
  slice_end n (slice_end n l1 ++ l2) = slice_end n (l1 ++ l2).
Proof.
  unfold slice_end.
  rewrite <- (drop_app_le l1 l2 (length l1 - n)) by lia.
  rewrite drop_drop. f_equal. rewrite length_drop, !length_app. lia.
Qed.

(** X17.  The log holds the last fifty entries, oldest first: after any run
    of [addLog] calls on a log of at most fifty entries, the log is the old
    log followed by the new entries, cut to its last fifty. *)
Theorem log_holds_last_fifty (prev entries : list LogEntry) :
  (length prev ≤ 50)%nat →
  foldl (λ log entry, appendLog entry log) prev entries
  = slice_end 50 (prev ++ entries).
Proof.
  intros Hlen. revert prev Hlen.
  induction entries as [|entry entries IH]; intros prev Hlen; simpl.
  - rewrite app_nil_r. unfold slice_end.
    by replace (length prev - 50)%nat with 0%nat by lia.
  - rewrite IH.
    + rewrite appendLog_slice, slice_end_slice_end.
      by rewrite <- app_assoc.
    + rewrite appendLog_slice, slice_end_length. lia.
Qed.

Lemma addLog_frame now message type s :
  micLevel (addLog now message type s) = micLevel s
  ∧ transform (addLog now message type s) = transform s.
Proof. done. Qed.

Lemma toggleTracking_frame env s :
  micLevel (toggleTracking env s) = micLevel s
  ∧ transform (toggleTracking env s) = transform s.
Proof.
  unfold toggleTracking. destruct (seenTracking env); [done|].
  by destruct (camera env).
Qed.

Lemma toggleMicrophone_frame env s :
  micLevel (toggleMicrophone env s) = micLevel s
  ∧ transform (toggleMicrophone env s) = transform s.
Proof.
  unfold toggleMicrophone. destruct (seenMicEnabled env) eqn:E; [done|].
  destruct (microphone env); [|done]. unfold updateLevel. simpl. done.
Qed.

Lemma handleKeyDown_micLevel env e s :
  micLevel (handleKeyDown env e s) = micLevel s.
Proof.
  unfold handleKeyDown.
  repeat (case_bool_decide; [first [done|apply toggleTracking_frame
                                   |apply toggleMicrophone_frame]|]).
  done.
Qed.

Lemma keysFrom_snoc s inputs input :
  keysFrom s (inputs ++ [input])
  = keydown input.1 input.2 (keysFrom s inputs).
Proof. unfold keysFrom. by rewrite foldl_app. Qed.

Lemma keysFrom_micLevel s inputs :
  micLevel (keysFrom s inputs) = micLevel s.
Proof.
  induction inputs as [|input inputs IH] using rev_ind; [done|].
  rewrite keysFrom_snoc. unfold keydown.
  destruct (keyboardShortcuts _); [|done].
  by rewrite handleKeyDown_micLevel.
Qed.

(** X18.  The microphone level is never set: [updateLevel] tests the
    [isMicEnabled] of the closure that starts it, which is false there, so
    switching the microphone on or off, and any run of key presses, leaves
    [micLevel] as it was. *)
Theorem microphone_level_never_set env s inputs :
  micLevel (toggleMicrophone env s) = micLevel s
  ∧ micLevel (keysFrom s inputs) = micLevel s.
Proof.
  split; [apply toggleMicrophone_frame|apply keysFrom_micLevel].
Qed.

Lemma handleKeyDown_scale env e s :
  num 0.1 ≤ modelScale (transform s) ∧ modelScale (transform s) ≤ num 3 →
  num 0.1 ≤ modelScale (transform (handleKeyDown env e s))
  ∧ modelScale (transform (handleKeyDown env e s)) ≤ num 3.
Proof.
  intros [Hlo Hhi]. unfold handleKeyDown.
  repeat (case_bool_decide; [try done|]); try done.
  - simpl. unfold Math_min. destruct (shiftKey e); case_decide;
      split; to_Q; lra.
  - simpl. unfold Math_max. destruct (shiftKey e); case_decide;
      split; to_Q; lra.
  - by rewrite (proj2 (toggleTracking_frame env s)).
  - by rewrite (proj2 (toggleMicrophone_frame env s)).
Qed.

(** X19.  The keyboard keeps the model's scale between 0.1 and 3: from a
    scale in that range, no run of key presses leaves it. *)
Theorem keyboard_scale_stays_in_range s inputs :
  num 0.1 ≤ modelScale (transform s) → modelScale (transform s) ≤ num 3 →
  num 0.1 ≤ modelScale (transform (keysFrom s inputs))
  ∧ modelScale (transform (keysFrom s inputs)) ≤ num 3.
Proof.
  intros Hlo Hhi.
  induction inputs as [|input inputs IH] using rev_ind; [done|].
  rewrite keysFrom_snoc. unfold keydown.
  destruct (keyboardShortcuts _); [|done].
  by apply handleKeyDown_scale.
Qed.

(** ** Creating the landmarkers, and the microphone in the effect *)

(** X20.  The landmarkers are created in the order face, pose, hand, and the
    first failure ends the creation: the success message is logged exactly
    when the resolver and every enabled creation succeed; a face landmarker
    that fails leaves all three refs as they were, although the pose and
    hand landmarkers are enabled; and the ref of a disabled part is never
    touched. *)
Theorem creation_stops_at_first_failure {L} settings vision
    (createFace createPose createHand : Outcome L) refs :
  let result :=
    initializeMediaPipe settings vision createFace createPose createHand refs in
  let succeeds (enabled : bool) (created : Outcome L) :=
    enabled = true → ∃ l, created = Resolves l in
  (result.2 = true ↔
     (∃ v, vision = Resolves v)
     ∧ succeeds (faceTrackingEnabled settings) createFace
     ∧ succeeds (bodyTrackingEnabled settings) createPose
     ∧ succeeds (handTrackingEnabled settings) createHand)
  ∧ (faceTrackingEnabled settings = true →
     (∃ errMessage, createFace = Rejects errMessage) → result.1 = refs)
  ∧ (faceTrackingEnabled settings = false →
     faceLandmarkerRef result.1 = faceLandmarkerRef refs)
  ∧ (bodyTrackingEnabled settings = false →
     poseLandmarkerRef result.1 = poseLandmarkerRef refs)
  ∧ (handTrackingEnabled settings = false →
     handLandmarkerRef result.1 = handLandmarkerRef refs).
Proof.
  intros result succeeds. subst result succeeds. cbv beta.
  unfold initializeMediaPipe, createIf.
  destruct vision as [[]|m].
  2:{ simpl. repeat split; try done. by intros [[? ?] _]. }
  destruct (faceTrackingEnabled settings), (bodyTrackingEnabled settings),
    (handTrackingEnabled settings), createFace as [lf|mf],
    createPose as [lp|mp], createHand as [lh|mh]; simpl;
    (split; [split; [intros ?; try done; repeat split; eauto; by intros [=]
                    |intros (_ & Hf & Hp & Hh); try done;
                     try (by destruct (Hf eq_refl));
                     try (by destruct (Hp eq_refl));
                     try (by destruct (Hh eq_refl))]
            |repeat split; try done; by intros _ [? ?]]).
Qed.

Lemma aa_write vrm td mt settings micLevel nowBlink nowIdle w :
  Expression "aa" w
    ∈ useVRMAnimation (Some vrm) td mt settings micLevel nowBlink nowIdle →
  w = Math_max (js_or (blendShapes (td_face td) !! "jawOpen") 0) micLevel
      * lipSyncSensitivity settings.
Proof.
  intros H. apply expression_sources in H as [(_ & _ & H)|H].
  - unfold applyBlink, applyLipSync, applyBrows in H.
    rewrite js_or_self in H. unfold mouthOpen in H.
    destruct (blinkEnabled settings), (lipSyncEnabled settings); set_solver.
  - destruct (autoBlink_cases vrm td settings nowBlink) as [E|E];
      rewrite E in H; set_solver.
Qed.

(** X21.  The microphone never reaches the mouth: the application hands the
    effect a [micLevel] that no run of key presses changes from its first
    value 0, so for a [jawOpen] score that is not negative any weight written
    to [aa] is [jawOpen * lipSyncSensitivity]. *)
Theorem microphone_never_reaches_mouth
    inputs vrm td settings nowBlink nowIdle w :
  let app := keysFrom initialApp inputs in
  let jawOpen := js_or (blendShapes (td_face td) !! "jawOpen") 0 in
  0 ≤ jawOpen →
  Expression "aa" w
    ∈ useVRMAnimation (Some vrm) td (transform app) settings (micLevel app)
        nowBlink nowIdle →
  w = jawOpen * lipSyncSensitivity settings.
Proof.
  intros app jawOpen Hjaw H. subst app jawOpen.
  apply aa_write in H. rewrite H. f_equal.
  rewrite keysFrom_micLevel. change (micLevel initialApp) with 0.
  unfold Math_max. case_decide; [|done].
  by apply Qcle_antisym.
Qed.

End Properties.

(** * Concrete runs *)

(** ** Smoothing *)

(** C1.  With [trackingSmoothing = 0.5], a previous yaw of 0 and a raw yaw of
    10, the tick leaves a yaw of 10 in the frame, where
    [lerp 0 10 (1 - 0.5)] is 5: the smoothing step compares the raw value
    with itself. *)
Theorem smoothing_compares_raw_with_itself :
  trackingSmoothing defaultSettings = num 0.5
  ∧ rot_y <$> (rotation <$> faceOf initialState) = Some 0
  ∧ rot_y <$> (rotation <$> faceOf (tick defaultSettings yaw10 initialState))
    = Some (num 10)
  ∧ faceDetected (detectionStatus (tick defaultSettings yaw10 initialState))
    = true
  ∧ lerp 0 (num 10) (1 - num 0.5) = num 5
  ∧ num 10 ≠ num 5.
Proof.
  repeat split; try (vm_compute; reflexivity).
  intros H. apply (f_equal this) in H. vm_compute in H. discriminate.
Qed.

(** ** Helpers for closed goals *)

(** A closed order or equality goal on [Qc], by evaluation. *)
Ltac qc_closed :=
  first [ apply Qc_is_canon; vm_compute; reflexivity
        | vm_compute; first [ reflexivity | discriminate | by intros ? ] ].

(** Membership in a closed list, by evaluation of the list. *)
Ltac in_closed_list :=
  vm_compute;
  repeat first [ apply list_elem_of_here | apply list_elem_of_further ].

(** ** Expression weights: runs *)

Lemma expression_weights_bounded_witness :
  (∀ k v, blendShapes (td_face jawAjar) !! k = Some v → 0 ≤ v ∧ v ≤ 1)
  ∧ (0 ≤ num 0.6 ∧ num 0.6 ≤ 1)
  ∧ (0 ≤ lipSyncSensitivity defaultSettings
     ∧ lipSyncSensitivity defaultSettings ≤ 1)
  ∧ Expression "aa" (mouthOpen (num 0.2) (num 0.6) (num 0.7))
      ∈ effect (Some fullRig) jawAjar restTransform defaultSettings
          (num 0.6) (num 4200) 0
  ∧ (("aa" ∈ ["blink"; "blinkLeft"; "blinkRight"; "aa"; "surprised"]
      ∧ 0 ≤ mouthOpen (num 0.2) (num 0.6) (num 0.7)
      ∧ mouthOpen (num 0.2) (num 0.6) (num 0.7) ≤ 1)
     ∨ ("aa" ∈ ["happy"; "angry"]
        ∧ 0 ≤ mouthOpen (num 0.2) (num 0.6) (num 0.7)
        ∧ mouthOpen (num 0.2) (num 0.6) (num 0.7) ≤ num 2)).
Proof.
  assert (H1 : ∀ k v, blendShapes (td_face jawAjar) !! k = Some v →
                      0 ≤ v ∧ v ≤ 1).
  { intros k v H.
    change (({[ "jawOpen" := num 0.2 ]} : gmap string Qc) !! k = Some v) in H.
    apply lookup_singleton_Some in H as [_ <-]. split; qc_closed. }
  assert (H2 : 0 ≤ num 0.6 ∧ num 0.6 ≤ 1) by (split; qc_closed).
  assert (H3 : 0 ≤ lipSyncSensitivity defaultSettings
               ∧ lipSyncSensitivity defaultSettings ≤ 1)
    by (split; qc_closed).
  assert (H4 : Expression "aa" (mouthOpen (num 0.2) (num 0.6) (num 0.7))
                 ∈ effect (Some fullRig) jawAjar restTransform defaultSettings
                     (num 0.6) (num 4200) 0) by in_closed_list.
  split; [exact H1|]. split; [exact H2|]. split; [exact H3|].
  split; [exact H4|].
  exact (expression_weights_bounded (host := exampleHost)
           _ _ _ _ _ _ _ _ _ H1 H2 H3 H4).
Defined.

(** C3, counterexample.  Two smile scores of 1 are within [[0,1]], and the
    effect hands the weight 2 to [happy]. *)
Lemma happy_weight_exceeds_one :
  (∀ k v, blendShapes (td_face broadSmile) !! k = Some v → 0 ≤ v ∧ v ≤ 1)
  ∧ (0 ≤ num 0.6 ∧ num 0.6 ≤ 1)
  ∧ (0 ≤ lipSyncSensitivity defaultSettings
     ∧ lipSyncSensitivity defaultSettings ≤ 1)
  ∧ Expression "happy" (num 2)
      ∈ effect (Some fullRig) broadSmile restTransform defaultSettings
          (num 0.6) (num 4200) 0
  ∧ ¬ num 2 ≤ 1.
Proof.
  split; [|split; [|split; [|split]]].
  - intros k v H.
    change (({[ "mouthSmileLeft" := 1; "mouthSmileRight" := 1 ]}
             : gmap string Qc) !! k = Some v) in H.
    apply lookup_insert_Some in H as [[_ <-]|[_ H]]; [split; qc_closed|].
    apply lookup_singleton_Some in H as [_ <-]. split; qc_closed.
  - split; qc_closed.
  - split; qc_closed.
  - in_closed_list.
  - intros H. by vm_compute in H.
Qed.

(** ** Mouth opening: run *)

Lemma mouth_open_fusion_witness :
  lipSyncEnabled defaultSettings = true
  ∧ Expression "aa" (Math_max (js_or (blendShapes (td_face jawAjar) !! "jawOpen") 0)
                              (num 0.6)
                     * lipSyncSensitivity defaultSettings)
      ∈ effect (Some fullRig) jawAjar restTransform defaultSettings
          (num 0.6) (num 4200) 0
  ∧ mouthOpen (num 0.2) (num 0.6) (num 0.7) = num 0.42
  ∧ mouthOpen (num 0.2) (num 0.3) (num 0.7)
    ≤ mouthOpen (num 0.2) (num 0.6) (num 0.7).
Proof.
  assert (H : lipSyncEnabled defaultSettings = true) by reflexivity.
  destruct (mouth_open_fusion (host := exampleHost)
              fullRig jawAjar restTransform defaultSettings (num 0.6)
              (num 4200) 0 H) as (_ & Hin & Hex & Hmono).
  split; [exact H|]. split; [by apply Hin|]. split; [exact Hex|].
  apply Hmono; qc_closed.
Defined.

(** ** The blink interval: runs *)

Lemma blink_interval_never_zero_witness :
  js_not (blinkInterval (unsetInterval defaultSettings)) = true
  ∧ blinkIntervalOr4 (unsetInterval defaultSettings) = num 4
  ∧ blinkInterval defaultSettings = Some (num 4)
  ∧ num 4 ≠ 0
  ∧ blinkIntervalOr4 defaultSettings = num 4
  ∧ is_Some (js_rem (Math_floor (num 4.1))
                    (blinkIntervalOr4 (unsetInterval defaultSettings))).
Proof.
  assert (H0 : num 4 ≠ 0).
  { intros H. apply (f_equal this) in H. vm_compute in H. discriminate. }
  destruct (blink_interval_never_zero (unsetInterval defaultSettings)
              (num 4.1)) as (_ & Hunset & _ & Hrem).
  destruct (blink_interval_never_zero defaultSettings (num 4.1))
    as (_ & _ & Hset & _).
  split; [reflexivity|]. split; [by apply Hunset|]. split; [reflexivity|].
  split; [exact H0|]. split; [by apply Hset|]. exact Hrem.
Defined.

(** ** The automatic blink: run *)



Lemma head_rotation_held_witness :
  faceSeen defaultSettings quiet = false
  ∧ finite64 (sub64 (double_of_Z 1) half64) = true
  ∧ rotation <$> faceOf (tick defaultSettings quiet afterYaw10)
    = rotation <$> faceOf afterYaw10
  ∧ rot_y <$> (rotation <$> faceOf afterYaw10) = Some (num 10)
  ∧ finite64 (double_of_Z 10) = true
  ∧ double_of_Z 10 ≠ negativeZero
  ∧ rot64_y (smoothingOfHeld64 half64
               {| rot64_x := negativeZero; rot64_y := double_of_Z 10;
                  rot64_z := positiveZero |})
    = double_of_Z 10.
Proof.
  assert (H1 : faceSeen defaultSettings quiet = false) by reflexivity.
  assert (H2 : finite64 (sub64 (double_of_Z 1) half64) = true)
    by (vm_compute; reflexivity).
  assert (H3 : finite64 (double_of_Z 10) = true) by (vm_compute; reflexivity).
  assert (H4 : double_of_Z 10 ≠ negativeZero) by (vm_compute; discriminate).
  destruct (head_rotation_held (host := exampleHost) true defaultSettings
              quiet afterYaw10 half64
              {| rot64_x := negativeZero; rot64_y := double_of_Z 10;
                 rot64_z := positiveZero |} H1 H2) as (Hq & _ & Hd).
  split; [exact H1|]. split; [exact H2|]. split; [exact Hq|].
  split; [vm_compute; reflexivity|]. split; [exact H3|]. split; [exact H4|].
  refine (proj1 (proj2 (Hd (double_of_Z 10) _ _ H3)) H4).
  apply list_elem_of_further, list_elem_of_here.
Defined.

(** C5, counterexample.  With [mirrorMode] on, a nose tip at x = 0.5 stores
    the negative zero as yaw, and with [trackingSmoothing = 0] the smoothing
    step of that tick does not touch it.  On a later tick without a face and
    with [trackingSmoothing = 0.5], the smoothing step rewrites it to
    [lerp(-0, -0, 0.5)], the positive zero: the stored bits change. *)
Lemma negative_zero_not_held :
  faceSeen defaultSettings quiet = false
  ∧ yaw64 true half64 = negativeZero
  ∧ lt64 positiveZero positiveZero = false
  ∧ smoothingOfHeld64 positiveZero negativeZeros = negativeZeros
  ∧ rot64_y negativeZeros = negativeZero
  ∧ lt64 positiveZero half64 = true
  ∧ lt64 half64 (double_of_Z 1) = true
  ∧ rot64_y (smoothingOfHeld64 half64 negativeZeros) = positiveZero
  ∧ positiveZero ≠ negativeZero.
Proof. repeat split; try (vm_compute; reflexivity). discriminate. Qed.



Lemma unreported_hand_is_held_witness :
  handReported quiet "left" = false
  ∧ errorLog (tick defaultSettings quiet afterLeftHand) = errorLog afterLeftHand
  ∧ "left" ∈ ["left"; "right"]
  ∧ handsOf (tick defaultSettings quiet afterLeftHand) ≫= (.!! "left")
    = handsOf afterLeftHand ≫= (.!! "left")
  ∧ handsDetected (detectionStatus (tick defaultSettings quiet afterLeftHand))
      !! "left" = Some false.
Proof.
  assert (Hrep : handReported quiet "left" = false) by reflexivity.
  assert (Hlog : errorLog (tick defaultSettings quiet afterLeftHand)
                 = errorLog afterLeftHand) by (vm_compute; reflexivity).
  assert (Hin : "left" ∈ ["left"; "right"]) by apply list_elem_of_here.
  destruct (unreported_hand_is_held (host := exampleHost) true defaultSettings
              quiet afterLeftHand "left" Hrep) as [Hheld Hstatus].
  split; [exact Hrep|]. split; [exact Hlog|]. split; [exact Hin|].
  split; [exact Hheld|]. exact (Hstatus eq_refl Hlog Hin).
Defined.

(** C2, counterexample.  The hand detector reports no hand on the second
    tick, the tick publishes, and the frame still holds the left hand as
    detected, with the landmarks of the first tick. *)
Lemma stale_hand :
  handReported quiet "left" = false
  ∧ errorLog (tick defaultSettings quiet afterLeftHand) = []
  ∧ handsOf (tick defaultSettings quiet afterLeftHand) ≫= (.!! "left")
    = Some {| landmarks := Some handLandmarkList; detected := true |}
  ∧ handsOf initialState ≫= (.!! "left")
    = Some {| landmarks := Some []; detected := false |}.
Proof. repeat split; vm_compute; reflexivity. Qed.

Lemma detector_failure_skips_tick_witness :
  detectorThrows defaultSettings poseFails = true
  ∧ trackingData (tick defaultSettings poseFails initialState)
    = trackingData initialState
  ∧ detectionStatus (tick defaultSettings poseFails initialState)
    = detectionStatus initialState
  ∧ (∃ e, errorLog (tick defaultSettings poseFails initialState)
          = errorLog initialState ++ [e])
  ∧ scheduled (tick defaultSettings poseFails initialState)
    = S (scheduled initialState)
  ∧ handsOf (tick defaultSettings poseFails initialState)
    = handsOf initialState
  ∧ rot_y <$> (rotation <$> faceOf initialState) = Some 0
  ∧ rotation <$> faceOf (tick defaultSettings poseFails initialState)
    = Some (headRotation (host := exampleHost) (mirrorMode defaultSettings)
              (landmark (num (2 # 3)) (num 0.5))
              (landmark (num 0.45) (num 0.5))
              (landmark (num 0.55) (num 0.5)))
  ∧ rot_y (headRotation (host := exampleHost) (mirrorMode defaultSettings)
             (landmark (num (2 # 3)) (num 0.5))
             (landmark (num 0.45) (num 0.5))
             (landmark (num 0.55) (num 0.5))) = num 10
  ∧ blendShapes <$> faceOf (tick defaultSettings poseFails initialState)
    = Some (collectBlendShapes [ {| categoryName := "jawOpen"; score := 1 |} ]).
Proof.
  assert (H : detectorThrows defaultSettings poseFails = true) by reflexivity.
  destruct (detector_failure_skips_tick (host := exampleHost)
              defaultSettings poseFails initialState H)
    as (H1 & H2 & H3 & H4 & H5 & _ & H7).
  destruct (H7 {| faceLandmarks := Some [faceAt (num (2 # 3))];
                  faceBlendshapes :=
                    Some [ {| categories :=
                                [ {| categoryName := "jawOpen";
                                     score := 1 |} ] |} ] |}
              (faceAt (num (2 # 3))) []
              (landmark (num (2 # 3)) (num 0.5))
              (landmark (num 0.45) (num 0.5))
              (landmark (num 0.55) (num 0.5))
              initialFace eq_refl eq_refl eq_refl eq_refl eq_refl eq_refl
              eq_refl) as [Hrot Hshapes].
  split; [exact H|]. split; [exact H1|]. split; [exact H2|].
  split; [exact H3|]. split; [exact H4|]. split; [exact H5|].
  split; [reflexivity|]. split; [exact Hrot|].
  split; [apply Qc_is_canon; vm_compute; reflexivity|].
  exact (Hshapes _ [] eq_refl).
Defined.

(** C4, counterexample.  Only the face detector throws.  The pose and the
    left hand that the other two detectors hold, and that a tick commits when
    the face detector returns, are in neither the frame nor the detection
    status after the tick. *)
Lemma failure_discards_other_modalities :
  faceLandmarker faceFails = Some Throws
  ∧ poseLandmarker faceFails = Some onePose
  ∧ handLandmarker faceFails = Some leftHandOnly
  ∧ poseDetected (detectionStatus (tick defaultSettings faceQuiet initialState))
    = true
  ∧ handsDetected (detectionStatus (tick defaultSettings faceQuiet initialState))
      !! "left" = Some true
  ∧ poseDetected (detectionStatus (tick defaultSettings faceFails initialState))
    = false
  ∧ handsDetected (detectionStatus (tick defaultSettings faceFails initialState))
      !! "left" = Some false
  ∧ pose (trackingData (tick defaultSettings faceFails initialState))
    = initialPose
  ∧ handsOf (tick defaultSettings faceFails initialState) ≫= (.!! "left")
    = Some {| landmarks := Some []; detected := false |}
  ∧ errorLog (tick defaultSettings faceFails initialState) = [DetectionFailure].
Proof. repeat split; vm_compute; reflexivity. Qed.


(** ** The tracking tick: further runs *)

Lemma detection_status_is_fresh_witness :
  errorLog (tick defaultSettings faceQuiet initialState) = errorLog initialState
  ∧ faceDetected (detectionStatus (tick defaultSettings faceQuiet initialState))
    = false
  ∧ poseDetected (detectionStatus (tick defaultSettings faceQuiet initialState))
    = true
  ∧ handsDetected (detectionStatus (tick defaultSettings faceQuiet initialState))
      !! "left" = Some true.
Proof.
  assert (H : errorLog (tick defaultSettings faceQuiet initialState)
              = errorLog initialState) by (vm_compute; reflexivity).
  destruct (detection_status_is_fresh (host := exampleHost)
              defaultSettings faceQuiet initialState H) as (Hf & Hp & Hh).
  split; [exact H|]. split; [exact Hf|]. split; [exact Hp|].
  exact (Hh "left").
Defined.

Lemma pose_passes_through_witness :
  poseSeen defaultSettings quiet = false
  ∧ pose (trackingData (tick defaultSettings quiet initialState))
    = pose (trackingData initialState)
  ∧ errorLog (tick defaultSettings faceQuiet initialState)
    = errorLog initialState
  ∧ poseSeen defaultSettings faceQuiet = true
  ∧ ∃ res p rest p11 p12 p13 p14 p15 p16,
      poseLandmarker faceQuiet = Some (Returns res)
      ∧ poseLandmarks res = Some (p :: rest)
      ∧ p !! 11%nat = Some p11 ∧ p !! 12%nat = Some p12
      ∧ p !! 13%nat = Some p13 ∧ p !! 14%nat = Some p14
      ∧ p !! 15%nat = Some p15 ∧ p !! 16%nat = Some p16
      ∧ pose (trackingData (tick defaultSettings faceQuiet initialState))
        = poseFrom p11 p12 p13 p14 p15 p16.
Proof.
  assert (H1 : poseSeen defaultSettings quiet = false) by reflexivity.
  assert (H2 : errorLog (tick defaultSettings faceQuiet initialState)
               = errorLog initialState) by (vm_compute; reflexivity).
  assert (H3 : poseSeen defaultSettings faceQuiet = true) by reflexivity.
  split; [exact H1|]. split.
  - exact (proj1 (pose_passes_through (host := exampleHost)
                    defaultSettings quiet initialState) H1).
  - split; [exact H2|]. split; [exact H3|].
    exact (proj2 (pose_passes_through (host := exampleHost)
                    defaultSettings faceQuiet initialState) H2 H3).
Defined.

Lemma reported_hand_is_stored_witness :
  errorLog (tick defaultSettings leftHandSeen initialState)
  = errorLog initialState
  ∧ handTrackingEnabled defaultSettings = true
  ∧ lastLabelled "left" 0 [[ {| categoryName := "Left"; score := 1 |} ]]
    = Some 0%nat
  ∧ handsOf (tick defaultSettings leftHandSeen initialState) ≫= (.!! "left")
    = Some {| landmarks := Some handLandmarkList; detected := true |}.
Proof.
  assert (H1 : errorLog (tick defaultSettings leftHandSeen initialState)
               = errorLog initialState) by (vm_compute; reflexivity).
  assert (H2 : handTrackingEnabled defaultSettings = true) by reflexivity.
  assert (H3 : lastLabelled "left" 0
                 [[ {| categoryName := "Left"; score := 1 |} ]]
               = Some 0%nat) by (vm_compute; reflexivity).
  split; [exact H1|]. split; [exact H2|]. split; [exact H3|].
  exact (reported_hand_is_stored (host := exampleHost)
           defaultSettings leftHandSeen initialState "left"
           {| handLandmarks := Some [handLandmarkList];
              handedness := [[ {| categoryName := "Left"; score := 1 |} ]] |}
           [handLandmarkList] 0%nat H1 H2 eq_refl eq_refl
           (λ H, eq_ind [handLandmarkList]
                   (λ l, match l with [] => False | _ => True end) I [] H)
           H3).
Defined.

Lemma short_face_skips_tick_witness :
  faceTrackingEnabled defaultSettings = true
  ∧ (length (replicate 100 origin) < 264)%nat
  ∧ errorLog (tick defaultSettings shortFace afterYaw10)
    = errorLog afterYaw10 ++ [TypeError]
  ∧ trackingData (tick defaultSettings shortFace afterYaw10)
    = trackingData afterYaw10
  ∧ detectionStatus (tick defaultSettings shortFace afterYaw10)
    = detectionStatus afterYaw10
  ∧ heap (tick defaultSettings shortFace afterYaw10) = heap afterYaw10.
Proof.
  assert (H1 : faceTrackingEnabled defaultSettings = true) by reflexivity.
  assert (H2 : (length (replicate 100 origin) < 264)%nat)
    by (rewrite length_replicate; lia).
  split; [exact H1|]. split; [exact H2|].
  exact (short_face_skips_tick (host := exampleHost)
           defaultSettings shortFace afterYaw10
           {| faceLandmarks := Some [replicate 100 origin];
              faceBlendshapes := Some [] |}
           (replicate 100 origin) [] H1 eq_refl eq_refl H2).
Defined.

Lemma complete_results_publish_witness :
  resultsComplete faceQuiet = true
  ∧ is_Some (faceOf initialState) ∧ is_Some (handsOf initialState)
  ∧ errorLog (tick defaultSettings faceQuiet initialState)
    = errorLog initialState
  ∧ is_Some (faceOf (tick defaultSettings faceQuiet initialState))
  ∧ is_Some (handsOf (tick defaultSettings faceQuiet initialState)).
Proof.
  assert (H1 : resultsComplete faceQuiet = true) by (vm_compute; reflexivity).
  assert (H2 : is_Some (faceOf initialState)) by (by eexists).
  assert (H3 : is_Some (handsOf initialState)) by (by eexists).
  split; [exact H1|]. split; [exact H2|]. split; [exact H3|].
  exact (complete_results_publish (host := exampleHost)
           defaultSettings faceQuiet initialState H1 H2 H3).
Defined.

Lemma complete_runs_never_fail_witness :
  Forall (λ input : Settings * Detectors, resultsComplete input.2 = true)
    twoTicks
  ∧ errorLog (ticksFrom (host := exampleHost) initialState twoTicks) = []
  ∧ scheduled (ticksFrom (host := exampleHost) initialState twoTicks) = 2%nat.
Proof.
  assert (H : Forall (λ input : Settings * Detectors,
                        resultsComplete input.2 = true) twoTicks).
  { repeat constructor; vm_compute; reflexivity. }
  split; [exact H|].
  exact (complete_runs_never_fail (host := exampleHost) twoTicks H).
Defined.

Lemma mirror_negates_rotation_witness :
  faceTrackingEnabled defaultSettings = true
  ∧ faceAt (num (2 # 3)) !! 1%nat = Some (landmark (num (2 # 3)) (num 0.5))
  ∧ faceAt (num (2 # 3)) !! 33%nat = Some (landmark (num 0.45) (num 0.5))
  ∧ faceAt (num (2 # 3)) !! 263%nat = Some (landmark (num 0.55) (num 0.5))
  ∧ faceOf initialState = Some initialFace
  ∧ ∃ plain mirrored,
      rotation <$> faceOf (tick (withMirror false defaultSettings) yaw10
                             initialState) = Some plain
      ∧ rotation <$> faceOf (tick (withMirror true defaultSettings) yaw10
                               initialState) = Some mirrored
      ∧ rot_x mirrored = - rot_x plain
      ∧ rot_y mirrored = - rot_y plain
      ∧ rot_z mirrored = - rot_z plain.
Proof.
  assert (H1 : faceTrackingEnabled defaultSettings = true) by reflexivity.
  assert (H2 : faceAt (num (2 # 3)) !! 1%nat
               = Some (landmark (num (2 # 3)) (num 0.5))) by reflexivity.
  assert (H3 : faceAt (num (2 # 3)) !! 33%nat
               = Some (landmark (num 0.45) (num 0.5))) by reflexivity.
  assert (H4 : faceAt (num (2 # 3)) !! 263%nat
               = Some (landmark (num 0.55) (num 0.5))) by reflexivity.
  assert (H5 : faceOf initialState = Some initialFace) by reflexivity.
  split; [exact H1|]. split; [exact H2|]. split; [exact H3|].
  split; [exact H4|]. split; [exact H5|].
  exact (mirror_negates_rotation (host := exampleHost)
           defaultSettings yaw10 initialState
           {| faceLandmarks := Some [faceAt (num (2 # 3))];
              faceBlendshapes := Some [] |}
           (faceAt (num (2 # 3))) [] _ _ _ _ H1 eq_refl eq_refl H2 H3 H4 H5).
Defined.

Lemma head_rotation_range_witness :
  (0 ≤ num (2 # 3) ∧ num (2 # 3) ≤ 1)
  ∧ (0 ≤ num 0.5 ∧ num 0.5 ≤ 1)
  ∧ (- num 30 ≤ rot_y (headRotation (host := exampleHost) false (landmark (num (2 # 3)) (num 0.5))
                         (landmark (num 0.45) (num 0.5))
                         (landmark (num 0.55) (num 0.5)))
     ∧ rot_y (headRotation (host := exampleHost) false (landmark (num (2 # 3)) (num 0.5))
                (landmark (num 0.45) (num 0.5))
                (landmark (num 0.55) (num 0.5))) ≤ num 30).
Proof.
  assert (H1 : 0 ≤ num (2 # 3) ∧ num (2 # 3) ≤ 1) by (split; qc_closed).
  assert (H2 : 0 ≤ num 0.5 ∧ num 0.5 ≤ 1) by (split; qc_closed).
  split; [exact H1|]. split; [exact H2|].
  exact (proj1 (head_rotation_range (host := exampleHost) false
                  (landmark (num (2 # 3)) (num 0.5))
                  (landmark (num 0.45) (num 0.5))
                  (landmark (num 0.55) (num 0.5)) H1 H2 H2 H2)).
Defined.

(** ** The rig effect: further runs *)

Lemma look_target_range_witness :
  (∀ k w, blendShapes (td_face (withShapes {[ "eyeLookInLeft" := num 0.5 ]}))
            !! k = Some w → 0 ≤ w ∧ w ≤ 1)
  ∧ LookAtTarget AxisX ((0 - num 0.5) * num 2)
      ∈ effect (Some fullRig) (withShapes {[ "eyeLookInLeft" := num 0.5 ]})
          restTransform defaultSettings 0 (num 4200) 0
  ∧ - num 2 ≤ (0 - num 0.5) * num 2 ∧ (0 - num 0.5) * num 2 ≤ num 2.
Proof.
  assert (H1 : ∀ k w,
             blendShapes (td_face (withShapes {[ "eyeLookInLeft" := num 0.5 ]}))
               !! k = Some w → 0 ≤ w ∧ w ≤ 1).
  { intros k w H.
    change (({[ "eyeLookInLeft" := num 0.5 ]} : gmap string Qc) !! k = Some w)
      in H.
    apply lookup_singleton_Some in H as [_ <-]. split; qc_closed. }
  assert (H2 : LookAtTarget AxisX ((0 - num 0.5) * num 2)
                 ∈ effect (Some fullRig)
                     (withShapes {[ "eyeLookInLeft" := num 0.5 ]})
                     restTransform defaultSettings 0 (num 4200) 0)
    by in_closed_list.
  split; [exact H1|]. split; [exact H2|].
  exact (look_target_range (host := exampleHost) _ _ _ _ _ _ _ _ _ H1 H2).
Defined.



Lemma breathing_amplitude_witness :
  (∀ x, - 1 ≤ Math_sin (Host := exampleHost) x
        ∧ Math_sin (Host := exampleHost) x ≤ 1)
  ∧ BoneRotation "chest" AxisX (0 * num 0.02)
      ∈ effect (Some fullRig) (withShapes ∅) restTransform defaultSettings
          0 (num 4200) 0
  ∧ - num 0.02 ≤ 0 * num 0.02 ∧ 0 * num 0.02 ≤ num 0.02.
Proof.
  assert (H1 : ∀ x, - 1 ≤ Math_sin (Host := exampleHost) x
                    ∧ Math_sin (Host := exampleHost) x ≤ 1)
    by (intros x; split; qc_closed).
  assert (H2 : BoneRotation "chest" AxisX (0 * num 0.02)
                 ∈ effect (Some fullRig) (withShapes ∅) restTransform
                     defaultSettings 0 (num 4200) 0) by in_closed_list.
  split; [exact H1|]. split; [exact H2|].
  exact (proj2 (proj2 (breathing_amplitude (host := exampleHost)
                         _ _ _ _ _ _ _ _ _ H1 H2))).
Defined.


(** ** The application component: runs *)

Lemma log_holds_last_fifty_witness :
  (length (replicate 50 (logEntry "old")) ≤ 50)%nat
  ∧ foldl (λ log entry, appendLog entry log) (replicate 50 (logEntry "old"))
      [logEntry "first"; logEntry "second"]
    = replicate 48 (logEntry "old") ++ [logEntry "first"; logEntry "second"].
Proof.
  assert (H : (length (replicate 50 (logEntry "old")) ≤ 50)%nat)
    by (rewrite length_replicate; lia).
  split; [exact H|].
  exact (log_holds_last_fifty (replicate 50 (logEntry "old"))
           [logEntry "first"; logEntry "second"] H).
Defined.

Lemma keyboard_scale_stays_in_range_witness :
  num 0.1 ≤ modelScale (transform initialApp)
  ∧ modelScale (transform initialApp) ≤ num 3
  ∧ num 0.1 ≤ modelScale (transform (keysFrom initialApp
                                       (replicate 12 (refused, bigPlus))))
  ∧ modelScale (transform (keysFrom initialApp
                             (replicate 12 (refused, bigPlus)))) ≤ num 3.
Proof.
  assert (H1 : num 0.1 ≤ modelScale (transform initialApp)) by qc_closed.
  assert (H2 : modelScale (transform initialApp) ≤ num 3) by qc_closed.
  split; [exact H1|]. split; [exact H2|].
  exact (keyboard_scale_stays_in_range initialApp
           (replicate 12 (refused, bigPlus)) H1 H2).
Defined.

Lemma microphone_never_reaches_mouth_witness :
  0 ≤ js_or (blendShapes (td_face jawAjar) !! "jawOpen") 0
  ∧ Expression "aa" (num 0.2 * num 0.7)
      ∈ effect (Some fullRig) jawAjar
          (transform (keysFrom initialApp [(granted, mKey)]))
          defaultSettings (micLevel (keysFrom initialApp [(granted, mKey)]))
          (num 4200) 0
  ∧ num 0.2 * num 0.7
    = js_or (blendShapes (td_face jawAjar) !! "jawOpen") 0
      * lipSyncSensitivity defaultSettings.
Proof.
  assert (H1 : 0 ≤ js_or (blendShapes (td_face jawAjar) !! "jawOpen") 0)
    by qc_closed.
  assert (H2 : Expression "aa" (num 0.2 * num 0.7)
                 ∈ effect (Some fullRig) jawAjar
                     (transform (keysFrom initialApp [(granted, mKey)]))
                     defaultSettings
                     (micLevel (keysFrom initialApp [(granted, mKey)]))
                     (num 4200) 0) by in_closed_list.
  split; [exact H1|]. split; [exact H2|].
  exact (microphone_never_reaches_mouth (host := exampleHost)
           [(granted, mKey)] fullRig jawAjar defaultSettings (num 4200) 0 _
           H1 H2).
Defined.

(** ** Creating the landmarkers: run *)

Lemma creation_stops_at_first_failure_witness :
  faceTrackingEnabled defaultSettings = true
  ∧ (initializeMediaPipe defaultSettings (Resolves ())
       (Rejects "no GPU") (Resolves 2%nat) (Resolves 3%nat)
       {| faceLandmarkerRef := None; poseLandmarkerRef := None;
          handLandmarkerRef := None |}).1
    = {| faceLandmarkerRef := None; poseLandmarkerRef := None;
         handLandmarkerRef := None |}.
Proof.
  assert (H : faceTrackingEnabled defaultSettings = true) by reflexivity.
  split; [exact H|].
  exact (proj1 (proj2 (creation_stops_at_first_failure defaultSettings
                         (Resolves ()) (Rejects "no GPU") (Resolves 2%nat)
                         (Resolves 3%nat)
                         {| faceLandmarkerRef := None;
                            poseLandmarkerRef := None;
                            handLandmarkerRef := None |}))
           H (ex_intro _ "no GPU" eq_refl)).
Defined.
